(** * osquery-perf: the simulated agent (agent.go)

    A shallow embedding of the per-agent protocol client, its run loop and
    the fleet launcher of [agent.go], with the properties of the
    specification stated over it.

    Go strings are byte strings: [string] (a list of [ascii]).  Go [int],
    [int64] and [time.Duration] are [Z].  The Go map [a.strings] is a
    [gmap string string].  Everything outside the program (the random
    source, the HTTP transport, the JSON decoder of the standard library,
    URL parsing, the UUID generator, the scheduler's sleep overshoot) is
    collected in one record of oracles, [Env]. *)

From Stdlib Require Import ZArith Lia List Ascii String DecimalString.
From stdpp Require Import base option strings gmap.
Import ListNotations.

Local Open Scope Z_scope.

(** ** Go values *)

(** A Go [error] value: the dynamic type's name (what [%T] prints) and the
    text of [Error()]. *)
Record GoError := mkError { etype : string; etext : string }.

(** [s[i]] on a Go string: [None] is the index-out-of-range panic. *)
Definition index (s : string) (i : Z) : option ascii :=
  if i <? 0 then None else String.get (Z.to_nat i) s.

(** The double quote, and a text between double quotes. *)
Definition dquote : ascii := "034"%char.
Definition quoted (s : string) : string :=
  String dquote (s +:+ String dquote EmptyString).

(** [len(s)] as an [int]. *)
Definition len (s : string) : Z := Z.of_nat (String.length s).

(** ** The agent *)

(** One action of a parsed template.  The [*.tmpl] files are configuration
    data outside [agent.go]; a template is taken as the list of its actions:
    literal text, an exported field of the agent, a call of the agent's
    [CachedString] method, or an action whose evaluation fails. *)
Inductive AgentField := FServerAddress | FEnrollSecret | FNodeKey | FUUID.

Inductive Action :=
| AText (s : string)
| AField (f : AgentField)
| ACachedString (key : string)
| AFail (e : GoError).

(** [type Agent struct].  [Client] is the transport and lives in [Env];
    [Templates] is the parsed template set, by template name. *)
Record Agent := mkAgent {
  ServerAddress : string;
  EnrollSecret : string;
  NodeKey : string;
  UUID : string;
  Templates : gmap string (list Action);
  strings : gmap string string
}.

Definition set_NodeKey (k : string) (a : Agent) : Agent :=
  mkAgent (ServerAddress a) (EnrollSecret a) k (UUID a) (Templates a) (strings a).

Definition set_strings (m : gmap string string) (a : Agent) : Agent :=
  mkAgent (ServerAddress a) (EnrollSecret a) (NodeKey a) (UUID a) (Templates a) m.

(** [type enrollResponse struct] and [type distributedReadResponse struct]. *)
Record enrollResponse := mkEnrollResponse { er_NodeKey : string }.
Record distributedReadResponse := mkReadResponse { Queries : gmap string string }.

(** ** Requests, responses and events *)

Record Request := mkRequest {
  req_method : string;
  req_url : string;
  req_header : list (string * string);
  req_body : string
}.

(** What [a.Client.Do(req)] returns: an error, or a response with its
    [StatusCode], [Status] and body. *)
Inductive DoResult :=
| DoErr (e : GoError)
| DoResp (StatusCode : Z) (Status : string) (Body : string).

(** The methods of [*Agent], with their arguments. *)
Inductive Call :=
| CEnroll
| CConfig
| CDistributedRead
| CDistributedWrite (queries : gmap string string).

(** What an execution lets the outside see, in order.  [EvCall] marks the
    entry of a method and has no counterpart in the Go text; the others are
    [log.Println], [a.Client.Do] with its outcome, [time.Sleep],
    [go a.runLoop()] with the time since the launcher started (in
    nanoseconds), and [fmt.Println]. *)
Inductive Event :=
| EvCall (c : Call)
| EvLog (line : string)
| EvDo (req : Request) (res : DoResult)
| EvSleep (d : Z)
| EvGo (a : Agent) (now : Z)
| EvPrint (line : string).

(** ** The world outside the program *)

Record Env := mkEnv {
  (** the value of the [i]-th [rand.Int63()] this agent makes *)
  rand_Int63 : nat -> Z;
  (** [http.NewRequest] fails exactly when [url.Parse] rejects the URL *)
  url_Parse : string -> option GoError;
  (** the outcome of the [i]-th [a.Client.Do] this agent makes *)
  client_Do : nat -> Request -> DoResult;
  (** [json.NewDecoder(body).Decode(&v)] at the two response types *)
  decode_enroll : string -> GoError + enrollResponse;
  decode_read : string -> GoError + distributedReadResponse;
  (** the text of the [i]-th [uuid.New().String()] *)
  uuid_New : nat -> string;
  (** by how long the [i]-th [time.Sleep] of [main] overshoots *)
  sleep_lag : nat -> Z
}.

(** ** Executions: state, panics and emitted events *)

(** The state a method of one agent runs in: the agent behind the pointer
    receiver, and how many draws and round trips it has made. *)
Record St := mkSt { ag : Agent; ndraw : nat; ndo : nat }.

Inductive Res (A : Type) : Type :=
| Ok (a : A)
| Panic (msg : string).
Arguments Ok {A} a.
Arguments Panic {A} msg.

Definition M (S A : Type) : Type := S -> Res A * S * list Event.

Definition ret {S A} (a : A) : M S A := fun s => (Ok a, s, []).

Definition bind {S A B} (m : M S A) (f : A -> M S B) : M S B :=
  fun s =>
    match m s with
    | (Ok a, s1, t1) =>
        match f a s1 with
        | (r, s2, t2) => (r, s2, t1 ++ t2)
        end
    | (Panic msg, s1, t1) => (Panic msg, s1, t1)
    end.

Definition panic {S A} (msg : string) : M S A := fun s => (Panic msg, s, []).
Definition emit {S} (e : Event) : M S unit := fun s => (Ok tt, s, [e]).
(** Run [m] and hand its panic, if any, to the caller as a value: what a
    deferred [recover()] around the call does. *)
Definition try {S A} (m : M S A) : M S (Res A) :=
  fun s => match m s with (r, s1, t1) => (Ok r, s1, t1) end.
Definition get {S} : M S S := fun s => (Ok s, s, []).
Definition put {S} (s : S) : M S unit := fun _ => (Ok tt, s, []).

Notation "x <- m ;; k" := (bind m (fun x => k))
  (at level 100, m at next level, k at level 200, right associativity).
Notation "m ;;; k" := (bind m (fun _ => k))
  (at level 100, k at level 200, right associativity).

(** The three components of a run. *)
Definition result {S A} (r : Res A * S * list Event) : Res A := fst (fst r).
Definition final {S A} (r : Res A * S * list Event) : S := snd (fst r).
Definition events {S A} (r : Res A * S * list Event) : list Event := snd r.

(** ** The field cache *)

Section AgentCode.

Variable env : Env.

(** [rand.Int63()] *)
Definition Int63 : M St Z :=
  fun s => (Ok (rand_Int63 env (ndraw s)),
            mkSt (ag s) (S (ndraw s)) (ndo s), []).

Definition stringVals : string :=
  "abcdefghijklmnopqrstuvwxyzABCDEFGHIJKLMNOPQRSTUVWXYZ0123456789-_."%string.

(** The loop of [randomString]: [k] iterations left, [sb] built so far.
    [stringVals[rand.Int63()%int64(len(stringVals))]]: [%] truncates
    ([Z.rem]), and the index panics out of range. *)
Fixpoint randomString_loop (k : nat) (sb : string) : M St string :=
  match k with
  | O => ret sb
  | S k' =>
      v <- Int63 ;;
      match index stringVals (Z.rem v (len stringVals)) with
      | Some c => randomString_loop k' (sb +:+ String c EmptyString)
      | None => panic "index out of range"%string
      end
  end.

(** The largest size the Go runtime accepts for one allocation
    ([maxAlloc], on 64-bit Linux). *)
Definition maxAlloc : Z := 2 ^ 48.

(** [func (a *Agent) randomString(n int) string].  [sb.Grow(n)] panics on a
    negative count, and on a count the runtime refuses to allocate; both
    before the loop, so before any draw.  Below that limit memory is taken
    to suffice. *)
Definition randomString (n : Z) : M St string :=
  if n <? 0 then panic "strings.Builder.Grow: negative count"%string
  else if maxAlloc <? n
  then panic "runtime error: makeslice: len out of range"%string
  else randomString_loop (Z.to_nat n) EmptyString.

(** [func (a *Agent) CachedString(key string) string] *)
Definition CachedString (key : string) : M St string :=
  s <- get ;;
  match strings (ag s) !! key with
  | Some val => ret val
  | None =>
      val <- randomString 12 ;;
      s' <- get ;;
      put (mkSt (set_strings (<[key := val]> (strings (ag s'))) (ag s'))
                (ndraw s') (ndo s')) ;;;
      ret val
  end.

(** ** Library calls the protocol client makes *)

Local Open Scope string_scope.

(** [log.Println(args...)]: the operands separated by spaces. *)
Definition Println {S} (args : list string) : M S unit :=
  emit (EvLog (String.concat " " args)).

(** [time.Sleep(d)] seen from the sleeping agent. *)
Definition Sleep {S} (d : Z) : M S unit := emit (EvSleep d).

(** [time.Second], in nanoseconds. *)
Definition Second : Z := 1000000000.

(** [fmt.Errorf(format, arg)] for a format without verbs, as every call of
    [agent.go] has it: the operand is reported as an extra argument. *)
Definition Errorf (format : string) (argtype argtext : string) : GoError :=
  mkError "*errors.errorString"
          (format +:+ "%!(EXTRA " +:+ argtype +:+ "=" +:+ argtext +:+ ")").

(** [http.NewRequest(method, url, body)] *)
Definition NewRequest (method url body : string) : Request + GoError :=
  match url_Parse env url with
  | Some err => inr err
  | None => inl (mkRequest method url [] body)
  end.

(** [req.Header.Add(key, value)] *)
Definition Header_Add (key value : string) (req : Request) : Request :=
  mkRequest (req_method req) (req_url req)
            (req_header req ++ [(key, value)]) (req_body req).

(** [a.Client.Do(req)] *)
Definition Do (req : Request) : M St DoResult :=
  fun s =>
    let r := client_Do env (ndo s) req in
    (Ok r, mkSt (ag s) (ndraw s) (S (ndo s)), [EvDo req r]).

Definition StatusOK : Z := 200.

(** ** Template execution *)

Definition field_value (f : AgentField) (a : Agent) : string :=
  match f with
  | FServerAddress => ServerAddress a
  | FEnrollSecret => EnrollSecret a
  | FNodeKey => NodeKey a
  | FUUID => UUID a
  end.

(** The actions of a template run in order and write to the buffer as they
    go; at the first failing action execution stops and what was written
    stays.  A panic inside a called method is recovered by the template
    package and becomes the error. *)
Fixpoint exec_actions (acts : list Action) (body : string)
  : M St (string * option GoError) :=
  match acts with
  | [] => ret (body, None)
  | AText t :: rest => exec_actions rest (body +:+ t)
  | AField f :: rest =>
      s <- get ;; exec_actions rest (body +:+ field_value f (ag s))
  | ACachedString key :: rest =>
      r <- try (CachedString key) ;;
      match r with
      | Ok val => exec_actions rest (body +:+ val)
      | Panic msg => ret (body, Some (mkError "template.ExecError" msg))
      end
  | AFail e :: _ => ret (body, Some e)
  end.

(** [a.Templates.ExecuteTemplate(&body, name, a)]: the new content of the
    buffer and the returned error. *)
Definition ExecuteTemplate (body name : string)
  : M St (string * option GoError) :=
  s <- get ;;
  match Templates (ag s) !! name with
  | None =>
      ret (body, Some (mkError "*errors.errorString"
                               ("template: no template " +:+ name)))
  | Some acts => exec_actions acts body
  end.

(** ** The protocol client *)

Definition std_headers (req : Request) : Request :=
  Header_Add "User-Agent" "osquery/4.1.2"
    (Header_Add "Accept" "application/json"
      (Header_Add "Content-Type" "application/json" req)).

(** [func (a *Agent) Enroll()].  The error of [ExecuteTemplate] is dropped. *)
Definition Enroll : M St unit :=
  emit (EvCall CEnroll) ;;;
  rendered <- ExecuteTemplate "" "enroll" ;;
  let body := fst rendered in
  s <- get ;;
  match NewRequest "POST" (ServerAddress (ag s) +:+ "/api/v1/osquery/enroll") body with
  | inr err => Println ["create request:"; etext err]
  | inl req =>
      resp <- Do (std_headers req) ;;
      match resp with
      | DoErr err => Println ["do request:"; etext err]
      | DoResp code status rbody =>
          if negb (code =? StatusOK)%Z then Println ["status:"; status]
          else
            match decode_enroll env rbody with
            | inl err => Println ["json parse:"; etext err]
            | inr parsedResp =>
                s' <- get ;;
                put (mkSt (set_NodeKey (er_NodeKey parsedResp) (ag s'))
                          (ndraw s') (ndo s'))
            end
      end
  end.

(** The body [Config] and [DistributedRead] send. *)
Definition node_key_body (key : string) : string :=
  "{" +:+ quoted "node_key" +:+ ": " +:+ String dquote key +:+ String dquote "}".

(** [func (a *Agent) Config()] *)
Definition Config : M St unit :=
  emit (EvCall CConfig) ;;;
  s <- get ;;
  let body := node_key_body (NodeKey (ag s)) in
  match NewRequest "POST" (ServerAddress (ag s) +:+ "/api/v1/osquery/config") body with
  | inr err => Println ["create config request:"; etext err]
  | inl req =>
      resp <- Do (std_headers req) ;;
      match resp with
      | DoErr err => Println ["do config request:"; etext err]
      | DoResp code status _ =>
          if negb (code =? StatusOK)%Z then Println ["config status:"; status]
          else ret tt
      end
  end.

(** [func (a *Agent) DistributedRead()], which returns a pointer to a
    [distributedReadResponse] and an [error]; [None] is [nil] in both. *)
Definition DistributedRead
  : M St (option distributedReadResponse * option GoError) :=
  emit (EvCall CDistributedRead) ;;;
  s <- get ;;
  let body := node_key_body (NodeKey (ag s)) in
  match NewRequest "POST" (ServerAddress (ag s) +:+ "/api/v1/osquery/distributed/read") body with
  | inr err =>
      ret (None, Some (Errorf "create distributed read request:" (etype err) (etext err)))
  | inl req =>
      resp <- Do (std_headers req) ;;
      match resp with
      | DoErr err =>
          ret (None, Some (Errorf "do distributed read request:" (etype err) (etext err)))
      | DoResp code status rbody =>
          if negb (code =? StatusOK)%Z
          then ret (None, Some (Errorf "distributed read status:" "string" status))
          else
            match decode_read env rbody with
            | inl err =>
                ret (None, Some (Errorf "json parse distributed read response:"
                                        (etype err) (etext err)))
            | inr parsedResp => ret (Some parsedResp, None)
            end
      end
  end.

(** [func (a *Agent) DistributedWrite(queries map[string]string)] *)
Definition DistributedWrite (queries : gmap string string) : M St unit :=
  emit (EvCall (CDistributedWrite queries)) ;;;
  match queries !! "kolide_detail_query_network_interface" with
  | None => ret tt
  | Some _ =>
      rendered <- ExecuteTemplate "" "distributed_write" ;;
      let body := fst rendered in
      s <- get ;;
      match NewRequest "POST" (ServerAddress (ag s) +:+ "/api/v1/osquery/distributed/write") body with
      | inr err => Println ["create distributed write request:"; etext err]
      | inl req =>
          resp <- Do (std_headers req) ;;
          match resp with
          | DoErr err => Println ["do distributed write request:"; etext err]
          | DoResp code status _ =>
              if negb (code =? StatusOK)%Z
              then Println ["distributed write status:"; status]
              else ret tt
          end
      end
  end.

(** ** The run loop *)

(** One iteration of the [for] of [runLoop].  [resp.Queries] on a nil
    [resp] would be a nil dereference. *)
Definition loopBody : M St unit :=
  Config ;;;
  r <- DistributedRead ;;
  (match r with
   | (_, Some err) => Println [etext err]
   | (Some resp, None) => DistributedWrite (Queries resp)
   | (None, None) => panic "nil pointer dereference"
   end) ;;;
  Sleep (10 * Second).

(** The first [n] iterations of [for { body }]; a panic ends the run. *)
Fixpoint iterations (n : nat) (body : M St unit) : M St unit :=
  match n with
  | O => ret tt
  | S n' => body ;;; iterations n' body
  end.

(** [func (a *Agent) runLoop()], observed up to its [n]-th iteration.  The
    [for] has no condition, [break] or [return]: the Go function has no
    other runs than these prefixes and what extends them. *)
Definition runLoop (n : nat) : M St unit :=
  Enroll ;;; iterations n loopBody.

End AgentCode.

(** ** The fleet launcher *)

(** [a / b] on [int64]: a zero divisor is the run-time panic, the quotient
    truncates and wraps. *)
Definition wrap64 (x : Z) : Z := (x + 2 ^ 63) mod 2 ^ 64 - 2 ^ 63.

Definition div64 (a b : Z) : option Z :=
  if b =? 0 then None else Some (wrap64 (Z.quot a b)).

(** [sleepTime]: ten seconds divided by the host count, as a
    [time.Duration]. *)
Definition sleepTime (hostCount : Z) : option Z :=
  div64 (10 * Second) hostCount.

(** What [main] holds: the [agents] slice, the number of UUIDs drawn and of
    sleeps made, and the time since it started. *)
Record Launcher := mkLauncher {
  agents : list Agent;
  nuuid : nat;
  nsleep : nat;
  clock : Z
}.

Section LauncherCode.

Variable env : Env.

(** [func NewAgent(serverAddress, enrollSecret string, templates)] *)
Definition NewAgent (serverAddress enrollSecret : string)
    (templates : gmap string (list Action)) : M Launcher Agent :=
  fun l =>
    (Ok (mkAgent serverAddress enrollSecret EmptyString
                 (uuid_New env (nuuid l)) templates ∅),
     mkLauncher (agents l) (S (nuuid l)) (nsleep l) (clock l), []).

(** [time.Sleep(d)] in [main]: it returns at once for [d <= 0], and
    otherwise after [d] and the overshoot of this sleep. *)
Definition SleepClock (d : Z) : M Launcher unit :=
  fun l =>
    (Ok tt,
     mkLauncher (agents l) (nuuid l) (S (nsleep l))
                (clock l + Z.max d 0 + sleep_lag env (nsleep l)),
     [EvSleep d]).

(** [agents = append(agents, a)] *)
Definition append_agent (a : Agent) : M Launcher unit :=
  fun l => (Ok tt, mkLauncher (agents l ++ [a]) (nuuid l) (nsleep l) (clock l), []).

(** [go a.runLoop()]: the loop starts on its own goroutine, [main] goes on. *)
Definition go_runLoop (a : Agent) : M Launcher unit :=
  fun l => (Ok tt, l, [EvGo a (clock l)]).

(** The [for] over [i] from [0] up to the host count, [k] iterations
    left. *)
Fixpoint launch_loop (k : nat) (serverURL enrollSecret : string)
    (tmpl : gmap string (list Action)) (sleepTime : Z) : M Launcher unit :=
  match k with
  | O => ret tt
  | S k' =>
      a <- NewAgent serverURL enrollSecret tmpl ;;
      append_agent a ;;;
      go_runLoop a ;;;
      SleepClock sleepTime ;;;
      launch_loop k' serverURL enrollSecret tmpl sleepTime
  end.

(** [func main()], from the parsed flags and templates ([template.ParseGlob]
    succeeded) up to the final receive that blocks for ever. *)
Definition main (serverURL enrollSecret : string) (hostCount : Z)
    (tmpl : gmap string (list Action)) : M Launcher unit :=
  match sleepTime hostCount with
  | None => panic "runtime error: integer divide by zero"%string
  | Some d =>
      launch_loop (Z.to_nat hostCount) serverURL enrollSecret tmpl d ;;;
      emit (EvPrint "Agents running. Kill with C-c."%string)
  end.

End LauncherCode.

(** The launcher as [main] finds it. *)
Definition launcher0 : Launcher := mkLauncher [] 0 0 0.

(** ** Reading a body as JSON

    The bodies of this protocol are flat objects whose members are strings.
    [json_object] reads such a text after RFC 8259: white space between
    tokens, strings between double quotes with the two-character escapes
    (a [\u] escape is outside the fragment), no raw control character in
    a string. *)

Inductive Token := TLBrace | TRBrace | TColon | TComma | TString (s : string).

Inductive Mode :=
| Outside
| InString (acc : string)
| Escaped (acc : string).

Definition is_ws (c : ascii) : bool :=
  let n := nat_of_ascii c in
  ((n =? 32) || (n =? 9) || (n =? 10) || (n =? 13))%nat.

Definition is_control (c : ascii) : bool := (nat_of_ascii c <? 32)%nat.

Definition backslash : ascii := "092"%char.

Definition unescape (c : ascii) : option ascii :=
  let n := nat_of_ascii c in
  if (n =? 34)%nat then Some dquote
  else if (n =? 92)%nat then Some backslash
  else if (n =? 47)%nat then Some "/"%char
  else if (n =? 98)%nat then Some "008"%char
  else if (n =? 102)%nat then Some "012"%char
  else if (n =? 110)%nat then Some "010"%char
  else if (n =? 114)%nat then Some "013"%char
  else if (n =? 116)%nat then Some "009"%char
  else None.

Definition snoc (acc : string) (c : ascii) : string :=
  (acc +:+ String c EmptyString)%string.

Fixpoint lex (m : Mode) (s : string) : option (list Token) :=
  match s with
  | EmptyString => match m with Outside => Some [] | _ => None end
  | String c rest =>
      match m with
      | Outside =>
          if is_ws c then lex Outside rest
          else if Ascii.eqb c "{" then cons TLBrace <$> lex Outside rest
          else if Ascii.eqb c "}" then cons TRBrace <$> lex Outside rest
          else if Ascii.eqb c ":" then cons TColon <$> lex Outside rest
          else if Ascii.eqb c "," then cons TComma <$> lex Outside rest
          else if Ascii.eqb c dquote then lex (InString EmptyString) rest
          else None
      | InString acc =>
          if Ascii.eqb c dquote then cons (TString acc) <$> lex Outside rest
          else if Ascii.eqb c backslash then lex (Escaped acc) rest
          else if is_control c then None
          else lex (InString (snoc acc c)) rest
      | Escaped acc =>
          match unescape c with
          | Some c' => lex (InString (snoc acc c')) rest
          | None => None
          end
      end
  end.

Fixpoint members (ts : list Token) : option (list (string * string)) :=
  match ts with
  | TString k :: TColon :: TString v :: rest =>
      match rest with
      | [TRBrace] => Some [(k, v)]
      | TComma :: rest' => cons (k, v) <$> members rest'
      | _ => None
      end
  | _ => None
  end.

(** The members of the object a text denotes, in order; [None] when the
    text is not such an object. *)
Definition json_object (body : string) : option (list (string * string)) :=
  match lex Outside body with
  | Some [TLBrace; TRBrace] => Some []
  | Some (TLBrace :: ts) => members ts
  | _ => None
  end.

(** A key the body can carry as it is: no double quote, no backslash, no
    control character. *)
Definition plain_char (c : ascii) : bool :=
  negb (Ascii.eqb c dquote) && negb (Ascii.eqb c backslash) && negb (is_control c).

Fixpoint plain (s : string) : bool :=
  match s with
  | EmptyString => true
  | String c rest => plain_char c && plain rest
  end.

(** ** What the properties speak of *)

(** The alphabet of the generated values: lowercase and uppercase letters,
    digits, and the three characters [-], [_] and [.]. *)
Definition between (lo hi : nat) (c : ascii) : bool :=
  let n := nat_of_ascii c in ((lo <=? n) && (n <=? hi))%nat.

Definition in_alphabet (c : ascii) : bool :=
  between 97 122 c || between 65 90 c || between 48 57 c
  || Ascii.eqb c "-" || Ascii.eqb c "_" || Ascii.eqb c ".".

Fixpoint all_chars (p : ascii -> bool) (s : string) : bool :=
  match s with
  | EmptyString => true
  | String c rest => p c && all_chars p rest
  end.

(** A value as the cache generates it: twelve characters of the alphabet. *)
Definition field_value_ok (v : string) : Prop :=
  String.length v = 12%nat /\ all_chars in_alphabet v = true.

(** What a method may change of the state it runs in, apart from the
    session key: the cache only grows, the round trips only add up. *)
Record frame (s s1 : St) : Prop := mkFrame {
  frame_address : ServerAddress (ag s1) = ServerAddress (ag s);
  frame_secret : EnrollSecret (ag s1) = EnrollSecret (ag s);
  frame_uuid : UUID (ag s1) = UUID (ag s);
  frame_templates : Templates (ag s1) = Templates (ag s);
  frame_cache : strings (ag s) ⊆ strings (ag s1)
}.

(** Further lookups in the cache, one after the other. *)
Fixpoint lookups (env : Env) (ks : list string) : M St unit :=
  match ks with
  | [] => ret tt
  | k :: ks' => CachedString env k ;;; lookups env ks'
  end.

(** The requests handed to [a.Client.Do], and the lines logged. *)
Definition do_request (e : Event) : option Request :=
  match e with EvDo req _ => Some req | _ => None end.
Definition log_line (e : Event) : option string :=
  match e with EvLog line => Some line | _ => None end.
Definition requests (t : list Event) : list Request := omap do_request t.
Definition log_lines (t : list Event) : list string := omap log_line t.

(** The HTTP exchange of a run, if it made one. *)
Fixpoint exchange (t : list Event) : option (Request * DoResult) :=
  match t with
  | [] => None
  | EvDo req res :: _ => Some (req, res)
  | _ :: t' => exchange t'
  end.

(** The steps of the run loop: which method is entered, and the idling. *)
Inductive Step :=
| SEnroll
| SConfig
| SRead
| SWrite (queries : gmap string string)
| SIdle (d : Z).

Definition step_of (e : Event) : option Step :=
  match e with
  | EvCall CEnroll => Some SEnroll
  | EvCall CConfig => Some SConfig
  | EvCall CDistributedRead => Some SRead
  | EvCall (CDistributedWrite q) => Some (SWrite q)
  | EvSleep d => Some (SIdle d)
  | _ => None
  end.

Definition schedule (t : list Event) : list Step := omap step_of t.



(** The goroutines [main] started, with their start times. *)
Definition started (e : Event) : option (Agent * Z) :=
  match e with EvGo a now => Some (a, now) | _ => None end.
Definition starts (t : list Event) : list (Agent * Z) := omap started t.

(** What [main] does in its loop: [n] times a start and a sleep of [d]. *)
Inductive LStep := LGo | LSleep (d : Z) | LPrint.

Definition lstep_of (e : Event) : option LStep :=
  match e with
  | EvGo _ _ => Some LGo
  | EvSleep d => Some (LSleep d)
  | EvPrint _ => Some LPrint
  | _ => None
  end.

Fixpoint staggered (n : nat) (d : Z) : list LStep :=
  match n with
  | O => []
  | S n' => LGo :: LSleep d :: staggered n' d
  end.

(** The stages [DistributedRead] names in its errors. *)
Definition read_stages : list string :=
  [ "create distributed read request:"%string;
    "do distributed read request:"%string;
    "distributed read status:"%string;
    "json parse distributed read response:"%string ].

Definition descriptive (e : GoError) : Prop :=
  exists stage, In stage read_stages /\ String.prefix stage (etext e) = true.

(** The stages [Enroll] and [DistributedWrite] name in their log lines. *)
Definition enroll_stages : list string :=
  [ "create request:"%string; "do request:"%string;
    "status:"%string; "json parse:"%string ].

Definition write_stages : list string :=
  [ "create distributed write request:"%string;
    "do distributed write request:"%string;
    "distributed write status:"%string ].

Definition reports (stages : list string) (line : string) : Prop :=
  exists stage, In stage stages /\ String.prefix stage line = true.

(** *** The sentences of the specification that the code does not keep,
    as they are written *)


(** "The body sent is well-formed JSON whose sole field [node_key] equals
    the agent's current session key." *)
Definition sends_node_key_object {A} (op : M St A) (s : St) : Prop :=
  forall req, In req (requests (events (op s))) ->
              json_object (req_body req)
              = Some [("node_key"%string, NodeKey (ag s))].

(** "Whenever rendering the template fails, the failure is logged." *)
Definition logs_render_failure (env : Env) (name : string) (op : M St unit)
    (s : St) : Prop :=
  forall out err s0,
    ExecuteTemplate env EmptyString name s = (Ok (out, Some err), s0, []) ->
    log_lines (events (op s)) <> [].

(** ** A concrete world: the fake server of the end-to-end scenarios *)

Module Scenario.

Local Open Scope string_scope.

Definition base : string := "https://localhost:8080".

Definition trigger_queries : gmap string string :=
  {[ "kolide_detail_query_network_interface" := "select * from interface_details" ]}.

Definition other_queries : gmap string string :=
  {[ "some_other_query" := "select 1" ]}.

(** The bodies the fake server answers with. *)
Definition enroll_reply : string := node_key_body "abc123".
Definition read_reply : string := "queries: network interface".
Definition other_reply : string := "queries: some other query".

(** [url.Parse] as far as the scenarios go: a URL that begins with a colon
    has no protocol scheme. *)
Definition parse_url (url : string) : option GoError :=
  match url with
  | String ":" _ => Some (mkError "*url.Error" "missing protocol scheme")
  | _ => None
  end.

(** The decoder at [enrollResponse], on flat objects: the member
    [node_key], or the zero value when the object has none. *)
Fixpoint member (k : string) (kvs : list (string * string)) : string :=
  match kvs with
  | [] => ""
  | (k', v) :: rest => if String.eqb k k' then v else member k rest
  end.

Definition decode_enroll_body (body : string) : GoError + enrollResponse :=
  match json_object body with
  | Some kvs => inr (mkEnrollResponse (member "node_key" kvs))
  | None => inl (mkError "*json.SyntaxError" "invalid character")
  end.

Definition decode_read_body (body : string) : GoError + distributedReadResponse :=
  if String.eqb body read_reply then inr (mkReadResponse trigger_queries)
  else if String.eqb body other_reply then inr (mkReadResponse other_queries)
  else inl (mkError "*json.SyntaxError" "invalid character").

(** The server: [enroll] is the body it answers to an enroll, [read] what
    it answers to a distributed read. *)
Definition serve (enroll : string) (read : DoResult) (i : nat) (req : Request)
  : DoResult :=
  if String.eqb (req_url req) (base +:+ "/api/v1/osquery/enroll")
  then DoResp 200 "200 OK" enroll
  else if String.eqb (req_url req) (base +:+ "/api/v1/osquery/config")
  then DoResp 200 "200 OK" ""
  else if String.eqb (req_url req) (base +:+ "/api/v1/osquery/distributed/read")
  then read
  else if String.eqb (req_url req) (base +:+ "/api/v1/osquery/distributed/write")
  then DoResp 200 "200 OK" ""
  else DoErr (mkError "*url.Error" "connection refused").

Definition draw (i : nat) : Z :=
  (Z.of_nat i * 6364136223846793005 + 1442695040888963407) mod 2 ^ 63.

Definition world (enroll : string) (read : DoResult) : Env :=
  mkEnv draw parse_url (serve enroll read) decode_enroll_body decode_read_body
        (fun i => "host-" +:+ NilZero.string_of_uint (Nat.to_uint i))
        (fun i => Z.of_nat i * 1000).

Definition good : Env := world enroll_reply (DoResp 200 "200 OK" read_reply).
Definition quiet : Env := world enroll_reply (DoResp 200 "200 OK" other_reply).
Definition failing : Env :=
  world enroll_reply (DoResp 500 "500 Internal Server Error" "").

(** A server whose session key has a double quote in it: its enroll reply
    is the object with the one member [node_key], the quotes of the key
    escaped. *)
Definition injected_key : string :=
  "x" +:+ String dquote ", " +:+ quoted "admin" +:+ ": " +:+ String dquote "1".

Definition escaped_key : string :=
  "x" +:+ String backslash (String dquote ", ")
      +:+ String backslash (String dquote "admin")
      +:+ String backslash (String dquote ": ")
      +:+ String backslash (String dquote "1").

Definition hostile : Env :=
  world (node_key_body escaped_key) (DoResp 200 "200 OK" read_reply).

(** The two templates, and an agent fresh from [NewAgent]. *)
Definition enroll_tmpl : list Action :=
  [ AText "enroll_secret="; AField FEnrollSecret;
    AText " host_identifier="; AField FUUID;
    AText " hardware_serial="; ACachedString "hardware_serial" ].

Definition write_tmpl : list Action :=
  [ AText "node_key="; AField FNodeKey;
    AText " hostname="; ACachedString "hostname" ].

Definition tmpl : gmap string (list Action) :=
  {[ "enroll" := enroll_tmpl; "distributed_write" := write_tmpl ]}.

Definition agent0 : Agent := mkAgent base "secret" "" "host-0" tmpl ∅.
Definition st0 : St := mkSt agent0 0 0.

(** An agent given a server address that does not parse, and one whose
    template set has neither template. *)
Definition agent_bad_url : Agent := mkAgent ":" "secret" "" "host-0" tmpl ∅.
Definition agent_no_tmpl : Agent := mkAgent base "secret" "" "host-0" ∅ ∅.

End Scenario.

(** ** Further notions, for the rest of the code *)

(** The request every method builds: a POST with the three headers, in the
    order they are added. *)
Definition std_request (url body : string) : Request :=
  mkRequest "POST" url
            [ ("Content-Type", "application/json")%string;
              ("Accept", "application/json")%string;
              ("User-Agent", "osquery/4.1.2")%string ]
            body.

(** Lookups one after the other, keeping what each returns. *)
Fixpoint CachedStrings (env : Env) (ks : list string) : M St (list string) :=
  match ks with
  | [] => ret []
  | k :: ks' =>
      v <- CachedString env k ;;
      vs <- CachedStrings env ks' ;;
      ret (v :: vs)
  end.

(** The durations slept, in order. *)
Definition slept (e : Event) : option Z :=
  match e with EvSleep d => Some d | _ => None end.
Definition sleeps (t : list Event) : list Z := omap slept t.

(** A request of the steady state: it carries the session key [key] in the
    body of [Config] and [DistributedRead], or it is a distributed write. *)
Definition steady_request (a : Agent) (req : Request) : Prop :=
  (req = std_request (ServerAddress a +:+ "/api/v1/osquery/config")
                     (node_key_body (NodeKey a)))
  \/ (req = std_request (ServerAddress a +:+ "/api/v1/osquery/distributed/read")
                        (node_key_body (NodeKey a)))
  \/ (req = std_request (ServerAddress a +:+ "/api/v1/osquery/distributed/write")
                        (req_body req)).

(** What a method that posts to [path] hands to the transport: the one
    standard request to that path when its URL parses, nothing when it
    does not. *)
Definition one_post (env : Env) (s : St) (path : string) (t : list Event)
  : Prop :=
  match url_Parse env (ServerAddress (ag s) +:+ path) with
  | None =>
      exists body,
        requests t = [std_request (ServerAddress (ag s) +:+ path) body]
  | Some _ => requests t = []
  end.

(** The exchange of a run answered 200. *)
Definition answered_ok (t : list Event) : Prop :=
  exists req status rbody, exchange t = Some (req, DoResp 200 status rbody).

(** ** The earlier revision of the run loop

    The second source file is the same program before [DistributedRead]
    returned anything: it reads no body, [DistributedWrite] takes no
    argument and always sends, and the loop calls both in every cycle.
    [NewAgent], [randomString], [CachedString], [Enroll], [Config] and
    [main] are the same text in both. *)

Module Rev0.

Section Code.

Variable env : Env.

Local Open Scope string_scope.

(** [func (a *Agent) DistributedRead()] *)
Definition DistributedRead : M St unit :=
  emit (EvCall CDistributedRead) ;;;
  s <- get ;;
  let body := node_key_body (NodeKey (ag s)) in
  match NewRequest env "POST" (ServerAddress (ag s) +:+ "/api/v1/osquery/distributed/read") body with
  | inr err => Println ["create distributed read request:"; etext err]
  | inl req =>
      resp <- Do env (std_headers req) ;;
      match resp with
      | DoErr err => Println ["do distributed read request:"; etext err]
      | DoResp code status _ =>
          if negb (code =? StatusOK)%Z
          then Println ["distributed read status:"; status]
          else ret tt
      end
  end.

(** [func (a *Agent) DistributedWrite()].  The entry marker carries the
    mapping the method is called with: here there is none, and it carries
    the empty one. *)
Definition DistributedWrite : M St unit :=
  emit (EvCall (CDistributedWrite ∅)) ;;;
  rendered <- ExecuteTemplate env "" "distributed_write" ;;
  let body := fst rendered in
  s <- get ;;
  match NewRequest env "POST" (ServerAddress (ag s) +:+ "/api/v1/osquery/distributed/write") body with
  | inr err => Println ["create distributed write request:"; etext err]
  | inl req =>
      resp <- Do env (std_headers req) ;;
      match resp with
      | DoErr err => Println ["do distributed write request:"; etext err]
      | DoResp code status _ =>
          if negb (code =? StatusOK)%Z
          then Println ["distributed write status:"; status]
          else ret tt
      end
  end.

(** One iteration of the [for] of [runLoop]. *)
Definition loopBody : M St unit :=
  Config env ;;;
  DistributedRead ;;;
  DistributedWrite ;;;
  Sleep (10 * Second).

(** [func (a *Agent) runLoop()], observed up to its [n]-th iteration. *)
Definition runLoop (n : nat) : M St unit :=
  Enroll env ;;; iterations n loopBody.

End Code.

End Rev0.

(** ** A world whose UUID generator never repeats itself

    The fake server again, with the [i]-th UUID made of [i] letters. *)

Fixpoint tally (i : nat) : string :=
  match i with
  | O => EmptyString
  | S i' => String "x" (tally i')
  end.

Definition tally_world : Env :=
  mkEnv Scenario.draw Scenario.parse_url
        (Scenario.serve Scenario.enroll_reply
                        (DoResp 200 "200 OK" Scenario.read_reply))
        Scenario.decode_enroll_body Scenario.decode_read_body
        tally (fun _ => 0).

(** * Properties *)

(** ** Strings and the monad *)

Lemma length_append (a b : string) :
  String.length (a +:+ b) = (String.length a + String.length b)%nat.
Proof.
  induction a as [|c a IH]; [reflexivity |].
  change (String c a +:+ b) with (String c (a +:+ b)). simpl. now rewrite IH.
Qed.

Lemma append_assoc (a b c : string) : (a +:+ b) +:+ c = a +:+ (b +:+ c).
Proof.
  induction a as [|x a IH]; [reflexivity |].
  change ((String x a +:+ b) +:+ c) with (String x ((a +:+ b) +:+ c)).
  now rewrite IH.
Qed.

Lemma append_empty_r (a : string) : a +:+ EmptyString = a.
Proof.
  induction a as [|x a IH]; [reflexivity |].
  change (String x a +:+ EmptyString) with (String x (a +:+ EmptyString)).
  now rewrite IH.
Qed.

Lemma all_chars_append p (a b : string) :
  all_chars p (a +:+ b) = all_chars p a && all_chars p b.
Proof.
  induction a as [|x a IH]; [reflexivity |].
  change (String x a +:+ b) with (String x (a +:+ b)). simpl.
  rewrite IH. now destruct (p x).
Qed.

(** A character read inside a string is one of its characters. *)
Lemma get_all_chars p (s : string) (n : nat) c :
  all_chars p s = true -> String.get n s = Some c -> p c = true.
Proof.
  revert n; induction s as [|x s IH]; intros n Hall Hget; simpl in *.
  - discriminate.
  - apply andb_prop in Hall as [Hx Hs].
    destruct n as [|n]; [now inversion Hget; subst | eauto].
Qed.

Lemma get_in_range (s : string) (n : nat) :
  (n < String.length s)%nat -> is_Some (String.get n s).
Proof.
  revert n; induction s as [|x s IH]; intros n Hn; simpl in *; [lia |].
  destruct n as [|n]; [eauto | apply IH; lia].
Qed.

Lemma stringVals_alphabet : all_chars in_alphabet stringVals = true.
Proof. reflexivity. Qed.

Lemma stringVals_len : len stringVals = 65.
Proof. reflexivity. Qed.

(** Indexing the alphabet with a remainder of a non-negative draw. *)
Lemma index_stringVals (v : Z) :
  0 <= v ->
  exists c, index stringVals (Z.rem v (len stringVals)) = Some c
            /\ in_alphabet c = true.
Proof.
  intros Hv. rewrite stringVals_len.
  pose proof (Z.rem_bound_pos v 65 Hv ltac:(lia)) as [Hlo Hhi].
  unfold index. destruct (Z.ltb_spec (Z.rem v 65) 0) as [|_]; [lia |].
  destruct (get_in_range stringVals (Z.to_nat (Z.rem v 65))) as [c Hc].
  { change (String.length stringVals) with 65%nat. lia. }
  exists c; split; [exact Hc |].
  eapply get_all_chars; [apply stringVals_alphabet | exact Hc].
Qed.

(** ** The field cache *)

Section FieldCache.

Variable env : Env.

Lemma frame_refl (s : St) : frame s s.
Proof. now split. Qed.

Lemma frame_trans (s s1 s2 : St) : frame s s1 -> frame s1 s2 -> frame s s2.
Proof.
  intros [A1 B1 C1 D1 E1] [A2 B2 C2 D2 E2]; split; try congruence.
  now transitivity (strings (ag s1)).
Qed.

(** Drawing random characters touches nothing but the draw count. *)
Lemma randomString_loop_run (k : nat) (sb : string) (s : St) :
  exists r d, randomString_loop env k sb s
              = (r, mkSt (ag s) (ndraw s + d) (ndo s), []).
Proof.
  revert sb s; induction k as [|k IH]; intros sb s.
  - exists (Ok sb), 0%nat. destruct s; simpl. unfold ret. now rewrite Nat.add_0_r.
  - simpl. unfold bind, Int63.
    destruct (index stringVals _) as [c|].
    + destruct (IH (sb +:+ String c EmptyString)
                   (mkSt (ag s) (S (ndraw s)) (ndo s))) as (r & d & ->).
      exists r, (S d). simpl. now rewrite Nat.add_succ_r.
    + exists (Panic "index out of range"%string), 1%nat.
      unfold panic. simpl. now rewrite Nat.add_1_r.
Qed.

Lemma randomString_run (n : Z) (s : St) :
  exists r d, randomString env n s
              = (r, mkSt (ag s) (ndraw s + d) (ndo s), []).
Proof.
  unfold randomString. destruct (n <? 0); [| destruct (maxAlloc <? n)].
  - eexists _, 0%nat. unfold panic. destruct s; simpl. now rewrite Nat.add_0_r.
  - eexists _, 0%nat. unfold panic. destruct s; simpl. now rewrite Nat.add_0_r.
  - apply randomString_loop_run.
Qed.

(** A name the cache knows is answered from the cache, and nothing moves. *)
Lemma CachedString_hit (key v : string) (s : St) :
  strings (ag s) !! key = Some v ->
  CachedString env key s = (Ok v, s, []).
Proof. intros H. unfold CachedString, bind, get. now rewrite H. Qed.

(** A name the cache does not know: what [randomString(12)] returns is
    stored under it and returned. *)
Lemma CachedString_miss (key v : string) (s s1 : St) :
  strings (ag s) !! key = None ->
  randomString env 12 s = (Ok v, s1, []) ->
  CachedString env key s
  = (Ok v, mkSt (set_strings (<[key := v]> (strings (ag s1))) (ag s1))
               (ndraw s1) (ndo s1), []).
Proof.
  intros H Hr. unfold CachedString, bind, get. rewrite H, Hr. reflexivity.
Qed.

(** Whatever happens inside, a lookup leaves the agent as it was but for a
    possibly larger cache, and makes no round trip and no event. *)
Lemma CachedString_run (key : string) (s : St) :
  exists r s1, CachedString env key s = (r, s1, [])
               /\ frame s s1 /\ NodeKey (ag s1) = NodeKey (ag s)
               /\ ndo s1 = ndo s.
Proof.
  destruct (strings (ag s) !! key) as [v|] eqn:H.
  - exists (Ok v), s. rewrite (CachedString_hit _ _ _ H).
    split; [reflexivity | split; [apply frame_refl | now split]].
  - destruct (randomString_run 12 s) as ([v|msg] & d & Hr).
    + rewrite (CachedString_miss _ _ _ _ H Hr). eexists _, _.
      split; [reflexivity |]. simpl. split; [| now split].
      split; simpl; try reflexivity. now apply insert_subseteq.
    + exists (Panic msg), (mkSt (ag s) (ndraw s + d) (ndo s)).
      unfold CachedString, bind, get. rewrite H, Hr.
      split; [reflexivity | split; [now split | now split]].
Qed.

(** From here on the random source keeps the contract of [rand.Int63]: a
    non-negative 63-bit integer. *)
Hypothesis Int63_range : forall i, 0 <= rand_Int63 env i < 2 ^ 63.

Lemma randomString_loop_ok (k : nat) (sb : string) (s : St) :
  exists v, randomString_loop env k sb s
            = (Ok (sb +:+ v), mkSt (ag s) (ndraw s + k) (ndo s), [])
            /\ String.length v = k /\ all_chars in_alphabet v = true.
Proof.
  revert sb s; induction k as [|k IH]; intros sb s.
  - exists EmptyString. rewrite append_empty_r, Nat.add_0_r.
    destruct s; simpl. now unfold ret.
  - simpl. unfold bind, Int63.
    destruct (index_stringVals (rand_Int63 env (ndraw s))) as (c & -> & Hc).
    { apply Int63_range. }
    destruct (IH (sb +:+ String c EmptyString)
                 (mkSt (ag s) (S (ndraw s)) (ndo s))) as (v & -> & Hlen & Hall).
    exists (String c v). simpl. rewrite append_assoc, Nat.add_succ_r.
    split; [reflexivity |]. split; [now rewrite Hlen |].
    now rewrite Hc, Hall.
Qed.

Lemma randomString_ok (s : St) :
  exists v, randomString env 12 s
            = (Ok v, mkSt (ag s) (ndraw s + 12) (ndo s), [])
            /\ field_value_ok v.
Proof.
  destruct (randomString_loop_ok 12 EmptyString s) as (v & Hv & Hlen & Hall).
  exists v. split; [exact Hv | now split].
Qed.

(** With a random source that keeps its contract a lookup returns. *)
Lemma CachedString_ok (key : string) (s : St) :
  exists v s1, CachedString env key s = (Ok v, s1, [])
               /\ strings (ag s1) !! key = Some v
               /\ strings (ag s) ⊆ strings (ag s1).
Proof.
  destruct (strings (ag s) !! key) as [v|] eqn:H.
  - exists v, s. now rewrite (CachedString_hit _ _ _ H).
  - destruct (randomString_ok s) as (v & Hr & _).
    rewrite (CachedString_miss _ _ _ _ H Hr). eexists _, _.
    split; [reflexivity |]. simpl.
    split; [apply lookup_insert_eq | now apply insert_subseteq].
Qed.

Lemma lookups_ok (ks : list string) (s : St) :
  exists s1, lookups env ks s = (Ok tt, s1, [])
             /\ strings (ag s) ⊆ strings (ag s1).
Proof.
  revert s; induction ks as [|k ks IH]; intros s.
  - now exists s.
  - destruct (CachedString_ok k s) as (v & s1 & Hk & _ & Hsub).
    destruct (IH s1) as (s2 & Hks & Hsub2).
    exists s2. simpl. unfold bind. rewrite Hk, Hks.
    split; [reflexivity | now transitivity (strings (ag s1))].
Qed.

(** C5.  The lookup in the field cache is idempotent.  The first call for
    a name stores what [randomString(12)] generated and returns it; a call
    for a name the cache holds returns the stored value and changes
    nothing; no call removes a name or changes the value of one; and after
    any further lookups the same name is answered with the same value, the
    state left as it is. *)
Theorem CachedString_idempotent (key : string) (ks : list string) (s : St) :
  exists v s1,
    CachedString env key s = (Ok v, s1, [])
    /\ (strings (ag s) !! key = None ->
        result (randomString env 12 s) = Ok v
        /\ strings (ag s1) = <[key := v]> (strings (ag s)))
    /\ (forall v0, strings (ag s) !! key = Some v0 -> v = v0 /\ s1 = s)
    /\ (forall k v0, strings (ag s) !! k = Some v0 ->
                    strings (ag s1) !! k = Some v0)
    /\ exists s2, lookups env ks s1 = (Ok tt, s2, [])
                 /\ CachedString env key s2 = (Ok v, s2, []).
Proof.
  destruct (CachedString_ok key s) as (v & s1 & Hrun & Hkey & Hsub).
  exists v, s1. split; [exact Hrun |].
  split; [| split; [| split]].
  - intros Hnone. destruct (randomString_ok s) as (v' & Hr & _).
    rewrite (CachedString_miss _ _ _ _ Hnone Hr) in Hrun.
    inversion Hrun; subst. rewrite Hr. now split.
  - intros v0 Hsome. rewrite (CachedString_hit _ _ _ Hsome) in Hrun.
    now inversion Hrun.
  - intros k v0 Hk. eapply lookup_weaken; eassumption.
  - destruct (lookups_ok ks s1) as (s2 & Hks & Hsub2).
    exists s2. split; [exact Hks |].
    apply CachedString_hit. eapply lookup_weaken; eassumption.
Qed.

(** C6.  Every value the cache generates has exactly twelve characters,
    each of them a lowercase letter, an uppercase letter, a digit or one of
    [-], [_] and [.]: so has what [randomString(12)] returns, so has what a
    lookup of an unknown name stores and returns, and a cache that holds
    only such values holds only such values after any lookup. *)
Theorem generated_value_ok (key : string) (s : St) :
  (exists v s1, randomString env 12 s = (Ok v, s1, []) /\ field_value_ok v)
  /\ (strings (ag s) !! key = None ->
      exists v s1, CachedString env key s = (Ok v, s1, [])
                   /\ strings (ag s1) !! key = Some v
                   /\ field_value_ok v)
  /\ ((forall k v, strings (ag s) !! k = Some v -> field_value_ok v) ->
      exists v s1, CachedString env key s = (Ok v, s1, [])
                   /\ field_value_ok v
                   /\ forall k v', strings (ag s1) !! k = Some v' ->
                                   field_value_ok v').
Proof.
  destruct (randomString_ok s) as (v & Hr & Hv).
  split; [eauto |]. split.
  - intros Hnone. rewrite (CachedString_miss _ _ _ _ Hnone Hr).
    eexists _, _. split; [reflexivity |]. simpl.
    split; [apply lookup_insert_eq | exact Hv].
  - intros Hinv. destruct (strings (ag s) !! key) as [v0|] eqn:Hkey.
    + rewrite (CachedString_hit _ _ _ Hkey). exists v0, s.
      split; [reflexivity |]. split; [eapply Hinv; eassumption | exact Hinv].
    + rewrite (CachedString_miss _ _ _ _ Hkey Hr). eexists _, _.
      split; [reflexivity |]. split; [exact Hv |]. simpl.
      intros k v'. rewrite lookup_insert. case_decide.
      * intros [= <-]. exact Hv.
      * apply Hinv.
Qed.

End FieldCache.

(** ** Template execution *)

Section Rendering.

Variable env : Env.

(** Executing actions never panics and emits nothing; it can only enlarge
    the cache. *)
Lemma exec_actions_run (acts : list Action) (body : string) (s : St) :
  exists out err s1,
    exec_actions env acts body s = (Ok (out, err), s1, [])
    /\ frame s s1 /\ NodeKey (ag s1) = NodeKey (ag s) /\ ndo s1 = ndo s.
Proof.
  revert body s; induction acts as [|a acts IH]; intros body s.
  - exists body, None, s. repeat split; reflexivity.
  - destruct a as [t|f|key|e]; simpl.
    + apply IH.
    + unfold bind, get. destruct (IH (body +:+ field_value f (ag s)) s)
        as (out & err & s1 & -> & H). now exists out, err, s1.
    + unfold bind, try.
      destruct (CachedString_run env key s) as (r & s1 & -> & Hf & Hk & Hd).
      destruct r as [val|msg].
      * destruct (IH (body +:+ val) s1) as (out & err & s2 & -> & Hf2 & Hk2 & Hd2).
        exists out, err, s2. split; [reflexivity |].
        split; [eapply frame_trans; eassumption |]. split; congruence.
      * eexists _, _, s1. unfold ret. split; [reflexivity |]. now split.
    + exists body, (Some e), s. repeat split; reflexivity.
Qed.

Lemma ExecuteTemplate_run (body name : string) (s : St) :
  exists out err s1,
    ExecuteTemplate env body name s = (Ok (out, err), s1, [])
    /\ frame s s1 /\ NodeKey (ag s1) = NodeKey (ag s) /\ ndo s1 = ndo s.
Proof.
  unfold ExecuteTemplate, bind, get.
  destruct (Templates (ag s) !! name) as [acts|].
  - destruct (exec_actions_run acts body s) as (out & err & s1 & -> & H).
    now exists out, err, s1.
  - eexists _, _, s. unfold ret. repeat split; reflexivity.
Qed.

(** A template that is not in the set writes nothing and fails. *)
Lemma ExecuteTemplate_missing (body name : string) (s : St) :
  Templates (ag s) !! name = None ->
  exists err, ExecuteTemplate env body name s = (Ok (body, Some err), s, []).
Proof.
  intros H. unfold ExecuteTemplate, bind, get. rewrite H. now eexists.
Qed.

End Rendering.

(** ** The protocol client *)

Lemma prefix_append (a b : string) : String.prefix a (a +:+ b) = true.
Proof.
  induction a as [|c a IH]; [now destruct b |].
  change (String c a +:+ b) with (String c (a +:+ b)). simpl.
  destruct (ascii_dec c c); [exact IH | congruence].
Qed.

Lemma reports_Println (stages : list string) (stage arg : string) :
  In stage stages -> reports stages (stage +:+ " " +:+ arg).
Proof. intros H. exists stage. split; [exact H | apply prefix_append]. Qed.

(** The cases of the sending that the four methods share: the URL does
    not parse, the round trip fails, the status is 200, or it is not. *)
Ltac split_send :=
  unfold NewRequest;
  destruct (url_Parse _ _) as [?e|] eqn:Hparse; simpl;
  [| destruct (client_Do _ _ _) as [?e|code status rbody] eqn:Hdo; simpl;
     [| destruct (Z.eqb_spec code StatusOK) as [->|Hcode]; simpl ] ].

Ltac finish_run :=
  eexists _, _; split; [reflexivity |].

Section Client.

Variable env : Env.


(** What every run of [Enroll] looks like from the run loop. *)
Lemma Enroll_run (s : St) :
  exists s1 t, Enroll env s = (Ok tt, s1, t) /\ schedule t = [SEnroll].
Proof.
  destruct (ExecuteTemplate_run env "" "enroll" s)
    as (out & err & s0 & Hrender & _).
  unfold Enroll, bind, emit. rewrite Hrender. simpl.
  split_send;
    [| | destruct (decode_enroll env rbody) as [e|r] eqn:Hdec; simpl |];
    finish_run; reflexivity.
Qed.

Lemma Config_run (s : St) :
  exists s1 t, Config env s = (Ok tt, s1, t)
               /\ ag s1 = ag s /\ schedule t = [SConfig].
Proof.
  unfold Config, bind, emit, get. simpl.
  split_send; finish_run; split; reflexivity.
Qed.

(** C2.  [DistributedRead] always returns, with the agent as it was, and
    it returns a result exactly when the exchange succeeded: the result is
    [r] if and only if the round trip answered 200 with a body that decodes
    to [r].  With a result the error is nil; without one (the request could
    not be created, the round trip failed, the status was not 200, the body
    did not decode) the error is not nil and names the stage that failed.
    The method logs nothing.

    Against the world: when the URL does not parse no round trip is made
    and the error is that of the request creation; otherwise the one
    request is handed to the client, and what the client and the decoder
    answer decides the outcome: on a 200 whose body decodes to [r], the
    result [r] and a nil error; on a transport error, on another status and
    on a body that does not decode, a nil result and the error of that very
    stage. *)
Theorem DistributedRead_result (s : St) :
  (exists resp err s1 t,
     DistributedRead env s = (Ok (resp, err), s1, t)
     /\ ag s1 = ag s
     /\ (forall r, resp = Some r <->
                   exists req status rbody,
                     exchange t = Some (req, DoResp 200 status rbody)
                     /\ decode_read env rbody = inr r)
     /\ (forall r, resp = Some r -> err = None)
     /\ (resp = None -> exists e, err = Some e /\ descriptive e)
     /\ log_lines t = [])
  /\ (let url := ServerAddress (ag s) +:+ "/api/v1/osquery/distributed/read" in
      let req :=
        std_headers (mkRequest "POST" url [] (node_key_body (NodeKey (ag s)))) in
      let s' := mkSt (ag s) (ndraw s) (S (ndo s)) in
      (forall e,
         url_Parse env url = Some e ->
         DistributedRead env s
         = (Ok (None, Some (Errorf "create distributed read request:"
                                   (etype e) (etext e))),
            s, [EvCall CDistributedRead]))
      /\ (forall e,
            url_Parse env url = None ->
            client_Do env (ndo s) req = DoErr e ->
            DistributedRead env s
            = (Ok (None, Some (Errorf "do distributed read request:"
                                      (etype e) (etext e))),
               s', [EvCall CDistributedRead; EvDo req (DoErr e)]))
      /\ (forall code status rbody,
            url_Parse env url = None ->
            client_Do env (ndo s) req = DoResp code status rbody ->
            code <> 200 ->
            DistributedRead env s
            = (Ok (None, Some (Errorf "distributed read status:"
                                      "string" status)),
               s', [EvCall CDistributedRead;
                    EvDo req (DoResp code status rbody)]))
      /\ (forall status rbody e,
            url_Parse env url = None ->
            client_Do env (ndo s) req = DoResp 200 status rbody ->
            decode_read env rbody = inl e ->
            DistributedRead env s
            = (Ok (None, Some (Errorf "json parse distributed read response:"
                                      (etype e) (etext e))),
               s', [EvCall CDistributedRead;
                    EvDo req (DoResp 200 status rbody)]))
      /\ (forall status rbody r,
            url_Parse env url = None ->
            client_Do env (ndo s) req = DoResp 200 status rbody ->
            decode_read env rbody = inr r ->
            DistributedRead env s
            = (Ok (Some r, None),
               s', [EvCall CDistributedRead;
                    EvDo req (DoResp 200 status rbody)]))).
Proof.
  split.
  - unfold DistributedRead, bind, emit, get. simpl.
    split_send;
      [| | destruct (decode_read env rbody) as [e|r] eqn:Hdec; simpl |];
      (eexists _, _, _, _; split; [reflexivity |]; split; [reflexivity |]);
      simpl; (split; [intros r'; split;
                      [intros ?; simplify_eq; eauto
                      | intros (? & ? & ? & ? & ?); simplify_eq; congruence] |]);
      (split; [intros; simplify_eq; reflexivity |]);
      (split; [| reflexivity]); intros; simplify_eq;
      eexists; (split; [reflexivity |]);
      eexists; (split; [| apply prefix_append]); simpl; tauto.
  - cbv zeta. unfold DistributedRead, bind, emit, get, NewRequest, Do. simpl.
    split; [| split; [| split; [| split]]].
    + intros e Hparse. rewrite Hparse. reflexivity.
    + intros e Hparse Hdo. rewrite Hparse. simpl. rewrite Hdo. reflexivity.
    + intros code status rbody Hparse Hdo Hcode. rewrite Hparse. simpl.
      rewrite Hdo. simpl.
      destruct (Z.eqb_spec code StatusOK) as [->|_]; [now elim Hcode |].
      reflexivity.
    + intros status rbody e Hparse Hdo Hdec. rewrite Hparse. simpl.
      rewrite Hdo. simpl. rewrite Hdec. reflexivity.
    + intros status rbody r Hparse Hdo Hdec. rewrite Hparse. simpl.
      rewrite Hdo. simpl. rewrite Hdec. reflexivity.
Qed.


Ltac one_report :=
  simpl;
  match goal with
  | |- Forall _ [] => constructor
  | |- Forall _ [_] =>
      constructor; [apply reports_Println; simpl; tauto | constructor]
  end.



(** C8, as the code has it.  When rendering the [enroll] or the
    [distributed_write] template fails, the error is dropped: the method
    goes on with what was rendered up to the failure.  It returns; every
    request it sends carries that partial body, and it sends one whenever
    the request can be created; whatever it logs reports a stage of the
    request, not the rendering. *)
Theorem render_failure_dropped (queries : gmap string string) (s : St) :
  (forall out err s0,
     ExecuteTemplate env "" "enroll" s = (Ok (out, Some err), s0, []) ->
     exists s1 t,
       Enroll env s = (Ok tt, s1, t)
       /\ (forall req, In req (requests t) -> req_body req = out)
       /\ (url_Parse env (ServerAddress (ag s) +:+ "/api/v1/osquery/enroll") = None ->
           length (requests t) = 1%nat)
       /\ Forall (reports enroll_stages) (log_lines t))
  /\ (forall out err s0,
        is_Some (queries !! "kolide_detail_query_network_interface") ->
        ExecuteTemplate env "" "distributed_write" s = (Ok (out, Some err), s0, []) ->
        exists s1 t,
          DistributedWrite env queries s = (Ok tt, s1, t)
          /\ (forall req, In req (requests t) -> req_body req = out)
          /\ (url_Parse env (ServerAddress (ag s) +:+ "/api/v1/osquery/distributed/write") = None ->
              length (requests t) = 1%nat)
          /\ Forall (reports write_stages) (log_lines t)).
Proof.
  split.
  - intros out err s0 Hrender.
    destruct (ExecuteTemplate_run env "" "enroll" s)
      as (out' & err' & s0' & Hrender' & Hframe & _).
    rewrite Hrender in Hrender'. symmetry in Hrender'. simplify_eq.
    unfold Enroll, bind, emit. rewrite Hrender. simpl.
    rewrite (frame_address _ _ Hframe).
    split_send;
      [| | destruct (decode_enroll env rbody) as [e|r] eqn:Hdec; simpl |];
      finish_run; simpl;
      (split; [intros req Hin; simpl in Hin; intuition (subst; reflexivity) |]);
      (split; [intros; simplify_eq; reflexivity |]);
      one_report.
  - intros out err s0 [q Hq] Hrender.
    destruct (ExecuteTemplate_run env "" "distributed_write" s)
      as (out' & err' & s0' & Hrender' & Hframe & _).
    rewrite Hrender in Hrender'. symmetry in Hrender'. simplify_eq.
    unfold DistributedWrite, bind, emit. rewrite Hq, Hrender. simpl.
    rewrite (frame_address _ _ Hframe).
    split_send; finish_run; simpl;
      (split; [intros req Hin; simpl in Hin; intuition (subst; reflexivity) |]);
      (split; [intros; simplify_eq; reflexivity |]);
      one_report.
Qed.

End Client.

(** ** The body of [Config] and [DistributedRead] *)

(** Inside a string the reader takes the characters of a plain text as
    they are, up to the closing quote. *)
Lemma lex_plain (key acc rest : string) :
  plain key = true ->
  lex (InString acc) (key +:+ String dquote rest)
  = cons (TString (acc +:+ key)) <$> lex Outside rest.
Proof.
  revert acc; induction key as [|c key IH]; intros acc Hplain.
  - rewrite append_empty_r. reflexivity.
  - simpl in Hplain. apply andb_prop in Hplain as [Hc Hkey].
    unfold plain_char in Hc.
    apply andb_prop in Hc as [Hc Hctl]. apply andb_prop in Hc as [Hq Hb].
    change (String c key +:+ String dquote rest)
      with (String c (key +:+ String dquote rest)).
    simpl. apply negb_true_iff in Hq, Hb, Hctl. rewrite Hq, Hb, Hctl.
    rewrite (IH _ Hkey). unfold snoc. now rewrite append_assoc.
Qed.

Lemma quoted_append (s t : string) :
  quoted s +:+ t = String dquote s +:+ String dquote t.
Proof.
  unfold quoted.
  change (String dquote (s +:+ String dquote EmptyString) +:+ t)
    with (String dquote ((s +:+ String dquote EmptyString) +:+ t)).
  now rewrite append_assoc.
Qed.

Lemma node_key_body_plain (key : string) :
  plain key = true ->
  json_object (node_key_body key) = Some [("node_key"%string, key)].
Proof.
  intros Hplain. unfold json_object.
  change (node_key_body key)
    with ("{" +:+ quoted "node_key" +:+ ": "
          +:+ String dquote (key +:+ String dquote "}"))%string.
  change (lex Outside
            ("{" +:+ quoted "node_key" +:+ ": "
             +:+ String dquote (key +:+ String dquote "}"))%string)
    with (cons TLBrace <$>
          (cons (TString "node_key") <$>
           (cons TColon <$>
            lex (InString EmptyString) (key +:+ String dquote "}"%string)))).
  rewrite (lex_plain _ _ _ Hplain). reflexivity.
Qed.

Section Bodies.

Variable env : Env.

(** C7, as the code has it.  Every request of [Config] and of
    [DistributedRead] carries the text [{"node_key": "] followed by the
    current session key and ["}], the key put in as it is.  For a session
    key without double quote, backslash and control character that text is
    the JSON object whose one member [node_key] is the key. *)
Theorem node_key_body_sent (s : St) :
  (forall req, In req (requests (events (Config env s))) ->
               req_body req = node_key_body (NodeKey (ag s)))
  /\ (forall req, In req (requests (events (DistributedRead env s))) ->
                  req_body req = node_key_body (NodeKey (ag s)))
  /\ node_key_body (NodeKey (ag s))
     = ("{" +:+ quoted "node_key" +:+ ": " +:+ quoted (NodeKey (ag s)) +:+ "}")%string
  /\ (plain (NodeKey (ag s)) = true ->
      json_object (node_key_body (NodeKey (ag s)))
      = Some [("node_key"%string, NodeKey (ag s))]).
Proof.
  split; [| split; [| split]].
  - unfold Config, bind, emit, get. simpl.
    split_send; simpl; intros req Hin; intuition (subst; reflexivity).
  - unfold DistributedRead, bind, emit, get. simpl.
    split_send;
      [| | destruct (decode_read env rbody) as [e|r]; simpl |];
      simpl; intros req Hin; intuition (subst; reflexivity).
  - unfold node_key_body. rewrite (quoted_append (NodeKey (ag s))).
    reflexivity.
  - apply node_key_body_plain.
Qed.

End Bodies.

(** ** The run loop *)

Lemma bind_ok {S A B} (m : M S A) (f : A -> M S B) s a s1 t1 r s2 t2 :
  m s = (Ok a, s1, t1) -> f a s1 = (r, s2, t2) ->
  bind m f s = (r, s2, t1 ++ t2).
Proof. intros Hm Hf. unfold bind. now rewrite Hm, Hf. Qed.

Lemma schedule_app (a b : list Event) :
  schedule (a ++ b) = schedule a ++ schedule b.
Proof. apply omap_app. Qed.


Section RunLoop.

Variable env : Env.





End RunLoop.

(** ** The fleet launcher *)

Lemma wrap64_small (x : Z) : - 2 ^ 63 <= x < 2 ^ 63 -> wrap64 x = x.
Proof. intros H. unfold wrap64. rewrite Z.mod_small; lia. Qed.

(** For a host count of at least one the delay is the truncated quotient,
    between zero and ten seconds. *)
Lemma sleepTime_pos (hostCount : Z) :
  1 <= hostCount ->
  sleepTime hostCount = Some (10 * Second / hostCount)
  /\ 0 <= 10 * Second / hostCount <= 10 * Second.
Proof.
  intros H. unfold sleepTime, div64.
  destruct (Z.eqb_spec hostCount 0) as [|_]; [lia |].
  assert (Hq : Z.quot (10 * Second) hostCount = 10 * Second / hostCount).
  { apply Z.quot_div_nonneg; unfold Second; lia. }
  assert (Hb : 0 <= 10 * Second / hostCount <= 10 * Second).
  { split; [apply Z.div_pos; unfold Second; lia |].
    apply Z.div_le_upper_bound; unfold Second; nia. }
  rewrite Hq, wrap64_small; [now split |]. unfold Second in *. lia.
Qed.

Lemma starts_go_sleep (a : Agent) (now d : Z) (t : list Event) :
  starts (EvGo a now :: EvSleep d :: t) = (a, now) :: starts t.
Proof. reflexivity. Qed.

Section Launch.

Variable env : Env.

(** A sleep lasts at least as long as asked. *)
Hypothesis lag_nonneg : forall i, 0 <= sleep_lag env i.

Lemma launch_loop_run (k : nat) (serverURL enrollSecret : string)
    (tmpl : gmap string (list Action)) (d : Z) (l0 : Launcher) :
  0 <= d ->
  exists l t,
    launch_loop env k serverURL enrollSecret tmpl d l0 = (Ok tt, l, t)
    /\ omap lstep_of t = staggered k d
    /\ agents l = agents l0 ++ map fst (starts t)
    /\ length (starts t) = k
    /\ clock l0 + Z.of_nat k * d <= clock l
    /\ forall j a now,
         starts t !! j = Some (a, now) ->
         a = mkAgent serverURL enrollSecret EmptyString
                     (uuid_New env (nuuid l0 + j)) tmpl ∅
         /\ clock l0 + Z.of_nat j * d <= now.
Proof.
  intros Hd. revert l0; induction k as [|k IH]; intros l0.
  - exists l0, []. simpl. split; [reflexivity |]. split; [reflexivity |].
    split; [now rewrite app_nil_r |]. split; [reflexivity |].
    split; [lia |]. intros j a now Hj. now rewrite lookup_nil in Hj.
  - simpl. unfold bind, NewAgent, append_agent, go_runLoop, SleepClock. simpl.
    match goal with
    | |- context [launch_loop env k _ _ _ _ ?l1] =>
        destruct (IH l1) as (l & t & -> & Hsteps & Hag & Hlen & Hclock & Hstart)
    end.
    cbn [agents clock nuuid] in Hag, Hclock, Hstart.
    eexists _, _. split; [reflexivity |].
    pose proof (lag_nonneg (nsleep l0)) as Hlag.
    rewrite starts_go_sleep.
    split; [simpl; do 2 f_equal; exact Hsteps |].
    split; [simpl; now rewrite Hag, <- app_assoc |].
    split; [simpl; now rewrite Hlen |].
    split; [lia |].
    intros [|j] a now Hj; simpl in Hj.
    + inversion Hj; subst. rewrite Nat.add_0_r. split; [reflexivity | lia].
    + destruct (Hstart j a now Hj) as [-> Hnow].
      rewrite Nat.add_succ_r. split; [reflexivity | lia].
Qed.

(** C9.  For a host count [N] of at least one, [main] computes the delay
    as the ten seconds divided by [N], then [N] times in a row creates an
    agent, starts its run loop on a goroutine of its own and sleeps the
    delay, and then reports that the agents are running.  The agents it
    holds are the [N] it started, in order, and the agent started [k]-th
    (from zero) is started no earlier than [k] delays after the launcher
    began. *)
Theorem main_staggered (serverURL enrollSecret : string) (N : Z)
    (tmpl : gmap string (list Action)) :
  1 <= N ->
  exists l t,
    sleepTime N = Some (10 * Second / N)
    /\ main env serverURL enrollSecret N tmpl launcher0 = (Ok tt, l, t)
    /\ omap lstep_of t = staggered (Z.to_nat N) (10 * Second / N) ++ [LPrint]
    /\ agents l = map fst (starts t)
    /\ length (agents l) = Z.to_nat N
    /\ forall k a now,
         starts t !! k = Some (a, now) ->
         a = mkAgent serverURL enrollSecret EmptyString (uuid_New env k) tmpl ∅
         /\ Z.of_nat k * (10 * Second / N) <= now.
Proof.
  intros HN. destruct (sleepTime_pos N HN) as [Hst [Hd _]].
  destruct (launch_loop_run (Z.to_nat N) serverURL enrollSecret tmpl
                            (10 * Second / N) launcher0 Hd)
    as (l & t & Hrun & Hsteps & Hag & Hlen & _ & Hstart).
  exists l, (t ++ [EvPrint "Agents running. Kill with C-c."%string]).
  split; [exact Hst |].
  assert (Hs : starts (t ++ [EvPrint "Agents running. Kill with C-c."%string])
               = starts t).
  { unfold starts. rewrite omap_app. simpl. apply app_nil_r. }
  split; [unfold main; rewrite Hst; eapply bind_ok; [exact Hrun | reflexivity] |].
  split; [rewrite omap_app, Hsteps; reflexivity |].
  rewrite Hs. split; [exact Hag |].
  split; [rewrite Hag; simpl; now rewrite length_map |].
  intros k a now Hk. apply (Hstart k a now Hk).
Qed.

End Launch.

(** C10.  The delay is computed without a guard against zero.  With a host
    count of zero the division panics: [main] ends there, with no agent
    created and nothing done.  With a host count of at least one the
    division is defined and its value is not negative. *)
Theorem sleepTime_unguarded (env : Env) (serverURL enrollSecret : string)
    (tmpl : gmap string (list Action)) (N : Z) :
  sleepTime 0 = None
  /\ main env serverURL enrollSecret 0 tmpl launcher0
     = (Panic "runtime error: integer divide by zero"%string, launcher0, [])
  /\ (1 <= N -> exists d, sleepTime N = Some d /\ 0 <= d).
Proof.
  split; [reflexivity |]. split; [reflexivity |].
  intros HN. destruct (sleepTime_pos N HN) as [Hst [Hd _]]. eauto.
Qed.

(** ** The scenarios of the specification, run

    Each of the statements above, taken at the fake server, and the three
    sentences the code does not keep, refuted there. *)

Import Scenario.

Lemma draw_range (i : nat) : 0 <= rand_Int63 good i < 2 ^ 63.
Proof. apply Z.mod_pos_bound. lia. Qed.

Lemma lag_range (i : nat) : 0 <= sleep_lag good i.
Proof. simpl. lia. Qed.

(** The end-to-end scenario: the session key becomes [abc123], and every
    cycle has its write. *)
Example scenario_good :
  NodeKey (ag (final (runLoop good 2 st0))) = "abc123"%string
  /\ schedule (events (runLoop good 2 st0))
     = [SEnroll;
        SConfig; SRead; SWrite trigger_queries; SIdle 10000000000;
        SConfig; SRead; SWrite trigger_queries; SIdle 10000000000]
  /\ length (requests (events (runLoop good 2 st0))) = 7%nat.
Proof. vm_compute. repeat split. Qed.

(** The negative scenario: other queries, no write. *)
Example scenario_quiet :
  schedule (events (runLoop quiet 1 st0))
  = [SEnroll; SConfig; SRead; SWrite other_queries; SIdle 10000000000]
  /\ map req_url (requests (events (runLoop quiet 1 st0)))
     = [ (base +:+ "/api/v1/osquery/enroll")%string;
         (base +:+ "/api/v1/osquery/config")%string;
         (base +:+ "/api/v1/osquery/distributed/read")%string ].
Proof. vm_compute. repeat split. Qed.

(** The failure scenario: the read answers 500; the error is logged, the
    write is skipped, the next cycle takes place. *)
Example scenario_failing :
  result (runLoop failing 2 st0) = Ok tt
  /\ schedule (events (runLoop failing 2 st0))
     = [SEnroll; SConfig; SRead; SIdle 10000000000;
        SConfig; SRead; SIdle 10000000000]
  /\ length (log_lines (events (runLoop failing 2 st0))) = 2%nat.
Proof. vm_compute. repeat split. Qed.

Lemma CachedString_idempotent_witness :
  (forall i, 0 <= rand_Int63 good i < 2 ^ 63)
  /\ exists v s1 s2,
       CachedString good "hostname" st0 = (Ok v, s1, [])
       /\ lookups good ["hardware_serial"%string] s1 = (Ok tt, s2, [])
       /\ CachedString good "hostname" s2 = (Ok v, s2, []).
Proof.
  split; [exact draw_range |].
  destruct (CachedString_idempotent good draw_range "hostname"
              ["hardware_serial"%string] st0)
    as (v & s1 & H1 & _ & _ & _ & s2 & H2 & H3).
  exists v, s1, s2. auto.
Defined.

Lemma generated_value_ok_witness :
  (forall i, 0 <= rand_Int63 good i < 2 ^ 63)
  /\ strings (ag st0) !! "hostname"%string = None
  /\ exists v s1,
       CachedString good "hostname" st0 = (Ok v, s1, [])
       /\ strings (ag s1) !! "hostname"%string = Some v
       /\ field_value_ok v.
Proof.
  split; [exact draw_range |]. split; [reflexivity |].
  apply (generated_value_ok good draw_range "hostname" st0). reflexivity.
Defined.


Lemma DistributedRead_result_witness :
  (* the server answers 200 with a body that decodes: the queries are
     returned *)
  DistributedRead good st0
  = (Ok (Some (mkReadResponse trigger_queries), None), mkSt agent0 0 1,
     [EvCall CDistributedRead;
      EvDo (std_request (base +:+ "/api/v1/osquery/distributed/read")
                        (node_key_body ""))
           (DoResp 200 "200 OK" read_reply)])
  (* the server answers 500: no result, the error of the status stage *)
  /\ DistributedRead failing st0
     = (Ok (None,
            Some (mkError "*errors.errorString"
                    "distributed read status:%!(EXTRA string=500 Internal Server Error)")),
        mkSt agent0 0 1,
        [EvCall CDistributedRead;
         EvDo (std_request (base +:+ "/api/v1/osquery/distributed/read")
                           (node_key_body ""))
              (DoResp 500 "500 Internal Server Error" "")])
  (* the address does not parse: no round trip, the error of the creation *)
  /\ DistributedRead good (mkSt agent_bad_url 0 0)
     = (Ok (None,
            Some (mkError "*errors.errorString"
                    "create distributed read request:%!(EXTRA *url.Error=missing protocol scheme)")),
        mkSt agent_bad_url 0 0, [EvCall CDistributedRead])
  (* and seen from the run alone *)
  /\ exists resp err s1 t,
       DistributedRead failing st0 = (Ok (resp, err), s1, t)
       /\ resp = None
       /\ exists e, err = Some e /\ descriptive e.
Proof.
  split; [| split; [| split]].
  - destruct (DistributedRead_result good st0)
      as (_ & _ & _ & _ & _ & Hok).
    apply (Hok "200 OK"%string read_reply (mkReadResponse trigger_queries));
      reflexivity.
  - destruct (DistributedRead_result failing st0)
      as (_ & _ & _ & Hstatus & _).
    apply (Hstatus 500 "500 Internal Server Error"%string ""%string);
      [reflexivity | reflexivity | lia].
  - destruct (DistributedRead_result good (mkSt agent_bad_url 0 0))
      as (_ & Hcreate & _).
    apply (Hcreate (mkError "*url.Error" "missing protocol scheme")).
    reflexivity.
  - destruct (DistributedRead_result failing st0)
      as ((resp & err & s1 & t & Hrun & _ & _ & _ & Hfail & _) & _).
    assert (Hr : result (DistributedRead failing st0) = Ok (resp, err))
      by (now rewrite Hrun).
    vm_compute in Hr. injection Hr as <- <-.
    eexists _, _, s1, t. split; [exact Hrun |].
    split; [reflexivity |]. apply Hfail. reflexivity.
Defined.


Lemma render_failure_dropped_witness :
  exists out err s1 t,
    ExecuteTemplate good "" "enroll" (mkSt agent_no_tmpl 0 0)
    = (Ok (out, Some err), mkSt agent_no_tmpl 0 0, [])
    /\ Enroll good (mkSt agent_no_tmpl 0 0) = (Ok tt, s1, t)
    /\ length (requests t) = 1%nat
    /\ forall req, In req (requests t) -> req_body req = out.
Proof.
  destruct (ExecuteTemplate_missing good "" "enroll" (mkSt agent_no_tmpl 0 0))
    as [err Hrender]; [reflexivity |].
  destruct (render_failure_dropped good ∅ (mkSt agent_no_tmpl 0 0))
    as [Henroll _].
  destruct (Henroll _ _ _ Hrender) as (s1 & t & Hrun & Hbody & Hone & _).
  exists EmptyString, err, s1, t. split; [exact Hrender |].
  split; [exact Hrun |]. split; [apply Hone; reflexivity | exact Hbody].
Defined.

Lemma node_key_body_sent_witness :
  plain "abc123" = true
  /\ json_object (node_key_body "abc123")
     = Some [("node_key"%string, "abc123"%string)].
Proof.
  split; [reflexivity |].
  apply (node_key_body_sent good
           (mkSt (mkAgent base "secret" "abc123" "host-0" tmpl ∅) 0 0)).
  reflexivity.
Defined.

Lemma main_staggered_witness :
  (forall i, 0 <= sleep_lag good i)
  /\ 1 <= 5
  /\ exists l t,
       sleepTime 5 = Some 2000000000
       /\ main good base "secret" 5 tmpl launcher0 = (Ok tt, l, t)
       /\ length (agents l) = 5%nat.
Proof.
  split; [exact lag_range |]. split; [lia |].
  destruct (main_staggered good lag_range base "secret" 5 tmpl)
    as (l & t & Hd & Hrun & _ & _ & Hlen & _); [lia |].
  exists l, t. split; [exact Hd |]. split; [exact Hrun | exact Hlen].
Defined.

Lemma sleepTime_unguarded_witness :
  1 <= 5 /\ exists d, sleepTime 5 = Some d /\ 0 <= d.
Proof.
  split; [lia |].
  apply (sleepTime_unguarded good base "secret" tmpl 5). lia.
Defined.


(** C7 as written fails: enrolled at a server whose session key has a
    double quote in it, the agent sends a [Config] body that reads as an
    object of two members. *)
Lemma sends_node_key_object_counterexample :
  ~ sends_node_key_object (Config hostile) (final (Enroll hostile st0)).
Proof.
  intros H.
  destruct (requests (events (Config hostile (final (Enroll hostile st0)))))
    as [|req reqs] eqn:E; [vm_compute in E; discriminate |].
  assert (Hreq : json_object (req_body req)
                 = Some [("node_key"%string,
                          NodeKey (ag (final (Enroll hostile st0))))]).
  { apply H. rewrite E. now left. }
  vm_compute in E. injection E as <- <-.
  vm_compute in Hreq. discriminate.
Qed.

(** C8 as written fails: with no [enroll] template rendering fails, and
    [Enroll] logs nothing. *)
Lemma logs_render_failure_counterexample :
  ~ logs_render_failure good "enroll" (Enroll good) (mkSt agent_no_tmpl 0 0).
Proof.
  intros H.
  destruct (ExecuteTemplate_missing good "" "enroll" (mkSt agent_no_tmpl 0 0))
    as [err Hrender]; [reflexivity |].
  apply (H _ _ _ Hrender). vm_compute. reflexivity.
Qed.

(** * Further properties of the code *)

(** ** [randomString] and [CachedString] *)

Section FieldCacheMore.

Variable env : Env.

Hypothesis Int63_range : forall i, 0 <= rand_Int63 env i < 2 ^ 63.

(** The loop of [randomString], draw by draw. *)
Lemma randomString_loop_chars (k : nat) (sb : string) (s : St) :
  exists v,
    randomString_loop env k sb s
    = (Ok (sb +:+ v), mkSt (ag s) (ndraw s + k) (ndo s), [])
    /\ String.length v = k
    /\ all_chars in_alphabet v = true
    /\ forall i, (i < k)%nat ->
         String.get i v
         = index stringVals
                 (Z.rem (rand_Int63 env (ndraw s + i)) (len stringVals)).
Proof.
  revert sb s; induction k as [|k IH]; intros sb s.
  - exists EmptyString. rewrite append_empty_r, Nat.add_0_r.
    destruct s; simpl. unfold ret.
    split; [reflexivity |]. split; [reflexivity |]. split; [reflexivity |].
    intros i Hi; lia.
  - simpl. unfold bind, Int63.
    destruct (index_stringVals (rand_Int63 env (ndraw s))) as (c & Hidx & Hc).
    { apply Int63_range. }
    rewrite Hidx.
    destruct (IH (sb +:+ String c EmptyString)
                 (mkSt (ag s) (S (ndraw s)) (ndo s)))
      as (v & -> & Hlen & Hall & Hget).
    exists (String c v). simpl. rewrite append_assoc, Nat.add_succ_r.
    split; [reflexivity |]. split; [now rewrite Hlen |].
    split; [now rewrite Hc, Hall |].
    intros [|i] Hi; simpl.
    + now rewrite Nat.add_0_r, Hidx.
    + rewrite Nat.add_succ_r. apply (Hget i). lia.
Qed.

(** X1.  [randomString(n)] for any [n].  A negative [n] panics, and so
    does an [n] above what the runtime allocates in one piece, both before
    any draw and with nothing changed.  In between it returns a string of
    exactly [n] characters of the alphabet, having made exactly [n] draws
    and touched nothing else, and its [i]-th character is the one the
    [i]-th of these draws selects: [stringVals] at the remainder of the
    draw by the alphabet's length. *)
Theorem randomString_spec (n : Z) (s : St) :
  (n < 0 ->
   randomString env n s
   = (Panic "strings.Builder.Grow: negative count"%string, s, []))
  /\ (maxAlloc < n ->
      randomString env n s
      = (Panic "runtime error: makeslice: len out of range"%string, s, []))
  /\ (0 <= n <= maxAlloc ->
      exists v,
        randomString env n s
        = (Ok v, mkSt (ag s) (ndraw s + Z.to_nat n) (ndo s), [])
        /\ len v = n
        /\ all_chars in_alphabet v = true
        /\ forall i, (i < Z.to_nat n)%nat ->
             String.get i v
             = index stringVals
                     (Z.rem (rand_Int63 env (ndraw s + i)) (len stringVals))).
Proof.
  unfold randomString. split; [| split]; intros Hn.
  - destruct (Z.ltb_spec n 0); [reflexivity | lia].
  - destruct (Z.ltb_spec n 0); [unfold maxAlloc in Hn; lia |].
    destruct (Z.ltb_spec maxAlloc n); [reflexivity | lia].
  - destruct (Z.ltb_spec n 0); [lia |].
    destruct (Z.ltb_spec maxAlloc n); [lia |].
    destruct (randomString_loop_chars (Z.to_nat n) EmptyString s)
      as (v & Hrun & Hlen & Hall & Hget).
    exists v. split; [exact Hrun |].
    split; [unfold len; rewrite Hlen; lia |]. now split.
Qed.

(** A lookup, with what it costs. *)
Lemma CachedString_cost (key : string) (s : St) :
  exists v s1,
    CachedString env key s = (Ok v, s1, [])
    /\ ndo s1 = ndo s
    /\ NodeKey (ag s1) = NodeKey (ag s)
    /\ strings (ag s1) !! key = Some v
    /\ strings (ag s) ⊆ strings (ag s1)
    /\ dom (strings (ag s1)) = {[key]} ∪ dom (strings (ag s))
    /\ (size (strings (ag s1)) <= S (size (strings (ag s))))%nat
    /\ (is_Some (strings (ag s) !! key) -> ndraw s1 = ndraw s)
    /\ (strings (ag s) !! key = None ->
        ndraw s1 = (ndraw s + 12)%nat
        /\ size (strings (ag s1)) = S (size (strings (ag s)))
        /\ forall i, (i < 12)%nat ->
             String.get i v
             = index stringVals
                     (Z.rem (rand_Int63 env (ndraw s + i)) (len stringVals))).
Proof.
  destruct (strings (ag s) !! key) as [v|] eqn:H.
  - exists v, s. rewrite (CachedString_hit env _ _ _ H).
    repeat split; try reflexivity; try exact H; try discriminate.
    + apply set_eq. intros k. rewrite elem_of_union, elem_of_singleton.
      split; [tauto |]. intros [-> | Hk]; [| exact Hk].
      apply elem_of_dom. eauto.
    + lia.
  - destruct (randomString_loop_chars 12 EmptyString s)
      as (v & Hr & Hlen & Hall & Hget).
    assert (Hrun : randomString env 12 s
                   = (Ok v, mkSt (ag s) (ndraw s + 12) (ndo s), []))
      by exact Hr.
    rewrite (CachedString_miss env _ _ _ _ H Hrun). eexists _, _.
    split; [reflexivity |]. simpl.
    split; [reflexivity |]. split; [reflexivity |].
    split; [apply lookup_insert_eq |].
    split; [now apply insert_subseteq |].
    split; [apply dom_insert_L |].
    split; [rewrite (map_size_insert_None _ _ _ H); lia |].
    split; [intros [? ?]; discriminate |]. intros _.
    split; [reflexivity |].
    split; [now apply map_size_insert_None | exact Hget].
Qed.

(** X2.  What a lookup in the cache costs and leaves behind.  It makes no
    round trip, emits nothing and keeps the session key.  Afterwards the
    cache knows exactly the names it knew and the name asked for.  A name
    the cache knew costs no draw; an unknown name costs exactly twelve
    draws, adds exactly one entry, and its value is made of these twelve
    draws, character by character. *)
Theorem CachedString_accounting (key : string) (s : St) :
  exists v s1,
    CachedString env key s = (Ok v, s1, [])
    /\ ndo s1 = ndo s
    /\ NodeKey (ag s1) = NodeKey (ag s)
    /\ dom (strings (ag s1)) = {[key]} ∪ dom (strings (ag s))
    /\ (is_Some (strings (ag s) !! key) -> ndraw s1 = ndraw s)
    /\ (strings (ag s) !! key = None ->
        ndraw s1 = (ndraw s + 12)%nat
        /\ size (strings (ag s1)) = S (size (strings (ag s)))
        /\ forall i, (i < 12)%nat ->
             String.get i v
             = index stringVals
                     (Z.rem (rand_Int63 env (ndraw s + i)) (len stringVals))).
Proof.
  destruct (CachedString_cost key s)
    as (v & s1 & Hrun & Hdo & Hkey & _ & _ & Hdom & _ & Hhit & Hmiss).
  exists v, s1. repeat split; assumption || (apply Hmiss; assumption).
Qed.

(** X3.  Any sequence of lookups leaves the cache with exactly the names it
    had and the names looked up: the cache grows by no more than the
    number of lookups, and no more than twelve draws are made per
    lookup. *)
Theorem lookups_dom (ks : list string) (s : St) :
  exists s1,
    lookups env ks s = (Ok tt, s1, [])
    /\ dom (strings (ag s1)) = list_to_set ks ∪ dom (strings (ag s))
    /\ (size (strings (ag s1)) <= size (strings (ag s)) + length ks)%nat
    /\ (ndraw s <= ndraw s1 <= ndraw s + 12 * length ks)%nat.
Proof.
  revert s; induction ks as [|k ks IH]; intros s.
  - exists s. split; [reflexivity |].
    split; [simpl; now rewrite (left_id_L ∅ (∪)) |]. simpl. lia.
  - destruct (CachedString_cost k s)
      as (v & s0 & Hk & _ & _ & _ & _ & Hdom & Hsize & Hhit & Hmiss).
    destruct (IH s0) as (s1 & Hks & Hdom1 & Hsize1 & Hdraw1).
    exists s1. simpl. unfold bind. rewrite Hk, Hks.
    split; [reflexivity |].
    split; [rewrite Hdom1, Hdom, (assoc_L (∪)),
              (comm_L (∪) (list_to_set ks)); reflexivity |].
    split; [simpl in *; lia |].
    destruct (strings (ag s) !! k) as [v0|] eqn:E.
    + rewrite <- (Hhit ltac:(eauto)). simpl. lia.
    + destruct (Hmiss eq_refl) as (Hd & _). simpl. lia.
Qed.

(** Lookups of names the cache knows return what it holds. *)
Lemma CachedStrings_hits (ks vs : list string) (s : St) :
  Forall2 (fun k v => strings (ag s) !! k = Some v) ks vs ->
  CachedStrings env ks s = (Ok vs, s, []).
Proof.
  intros H; induction H as [|k v ks' vs' Hk Hrest IH]; [reflexivity |].
  simpl. unfold bind. rewrite (CachedString_hit env _ _ _ Hk), IH. reflexivity.
Qed.

Lemma CachedStrings_ok (ks : list string) (s : St) :
  exists vs s1,
    CachedStrings env ks s = (Ok vs, s1, [])
    /\ strings (ag s) ⊆ strings (ag s1)
    /\ Forall2 (fun k v => strings (ag s1) !! k = Some v) ks vs.
Proof.
  revert s; induction ks as [|k ks IH]; intros s.
  - exists [], s. split; [reflexivity |]. split; [reflexivity | constructor].
  - destruct (CachedString_cost k s)
      as (v & s0 & Hk & _ & _ & Hv & Hsub & _).
    destruct (IH s0) as (vs & s1 & Hks & Hsub1 & Hall).
    exists (v :: vs), s1. simpl. unfold bind. rewrite Hk, Hks.
    split; [reflexivity |].
    split; [now transitivity (strings (ag s0)) |].
    constructor; [eapply lookup_weaken; eassumption | exact Hall].
Qed.

(** X4.  Asking the cache for the same names again gives the same values
    again, name by name, and the second pass changes nothing and draws
    nothing: what is rendered from the cache twice is rendered alike. *)
Theorem CachedStrings_stable (ks : list string) (s : St) :
  exists vs s1,
    CachedStrings env ks s = (Ok vs, s1, [])
    /\ length vs = length ks
    /\ CachedStrings env ks s1 = (Ok vs, s1, [])
    /\ forall i k v, ks !! i = Some k -> vs !! i = Some v ->
                     strings (ag s1) !! k = Some v.
Proof.
  destruct (CachedStrings_ok ks s) as (vs & s1 & Hrun & _ & Hall).
  exists vs, s1. split; [exact Hrun |].
  split; [symmetry; eapply Forall2_length; exact Hall |].
  split; [now apply CachedStrings_hits |].
  intros i k v Hk Hv.
  exact (Forall2_lookup_lr _ _ _ _ _ _ Hall Hk Hv).
Qed.

End FieldCacheMore.

(** ** The requests and the log of the protocol client *)

Section ClientMore.

Variable env : Env.

(** X5.  Every method hands at most one request to the transport, and it
    is always the same kind of request: a POST to the server address
    followed by the method's path, with the three headers [Content-Type],
    [Accept] and [User-Agent] in this order.  [Enroll], [Config] and
    [DistributedRead] send it exactly when that URL parses;
    [DistributedWrite] sends it exactly when, besides, the trigger is in
    the mapping. *)
Theorem requests_standard (queries : gmap string string) (s : St) :
  one_post env s "/api/v1/osquery/enroll" (events (Enroll env s))
  /\ one_post env s "/api/v1/osquery/config" (events (Config env s))
  /\ one_post env s "/api/v1/osquery/distributed/read"
              (events (DistributedRead env s))
  /\ (is_Some (queries !! "kolide_detail_query_network_interface") ->
      one_post env s "/api/v1/osquery/distributed/write"
               (events (DistributedWrite env queries s)))
  /\ (queries !! "kolide_detail_query_network_interface" = None ->
      requests (events (DistributedWrite env queries s)) = []).
Proof.
  split; [| split; [| split; [| split]]].
  - destruct (ExecuteTemplate_run env "" "enroll" s)
      as (out & err & s0 & Hrender & Hframe & _).
    unfold one_post, Enroll, bind, emit. rewrite Hrender. simpl.
    rewrite (frame_address _ _ Hframe).
    split_send;
      [| | destruct (decode_enroll env rbody) as [e|r]; simpl |];
      first [reflexivity | eexists; reflexivity].
  - unfold one_post, Config, bind, emit, get. simpl.
    split_send; first [reflexivity | eexists; reflexivity].
  - unfold one_post, DistributedRead, bind, emit, get. simpl.
    split_send;
      [| | destruct (decode_read env rbody) as [e|r]; simpl |];
      first [reflexivity | eexists; reflexivity].
  - intros [q Hq].
    destruct (ExecuteTemplate_run env "" "distributed_write" s)
      as (out & err & s0 & Hrender & Hframe & _).
    unfold one_post, DistributedWrite, bind, emit. rewrite Hq, Hrender. simpl.
    rewrite (frame_address _ _ Hframe).
    split_send; first [reflexivity | eexists; reflexivity].
  - intros Hq. unfold DistributedWrite, bind, emit. rewrite Hq. reflexivity.
Qed.

(** X6.  [Config] changes nothing of the agent and makes no draw, whatever
    the server answers: the response body is not read.  Its round trips
    are counted, and it logs exactly when the exchange did not answer 200,
    one line. *)
Theorem Config_effect (s : St) :
  exists s1 t,
    Config env s = (Ok tt, s1, t)
    /\ ag s1 = ag s
    /\ ndraw s1 = ndraw s
    /\ ndo s1 = (ndo s + length (requests t))%nat
    /\ (length (log_lines t) <= 1)%nat
    /\ (log_lines t = [] <-> answered_ok t).
Proof.
  unfold Config, bind, emit, get, answered_ok. simpl.
  split_send; finish_run; simpl;
    (split; [reflexivity |]); (split; [reflexivity |]);
    (split; [lia |]); (split; [lia |]);
    (split; [intros ?; simplify_eq; eauto
            | intros (? & ? & ? & ?); simplify_eq; congruence]).
Qed.


End ClientMore.

(** ** The steady state of the run loop *)

Lemma steady_request_frame (a a' : Agent) (req : Request) :
  ServerAddress a' = ServerAddress a -> NodeKey a' = NodeKey a ->
  steady_request a req -> steady_request a' req.
Proof. unfold steady_request. intros -> ->. tauto. Qed.

Lemma frame_same_agent (s s1 : St) : ag s1 = ag s -> frame s s1.
Proof. intros H. split; now rewrite H. Qed.

Lemma sleeps_app (a b : list Event) : sleeps (a ++ b) = sleeps a ++ sleeps b.
Proof. apply omap_app. Qed.

Lemma requests_app (a b : list Event) :
  requests (a ++ b) = requests a ++ requests b.
Proof. apply omap_app. Qed.

Lemma log_lines_app (a b : list Event) :
  log_lines (a ++ b) = log_lines a ++ log_lines b.
Proof. apply omap_app. Qed.

Section SteadyState.

Variable env : Env.

(** With the trigger in the mapping, [DistributedWrite] is the
    [DistributedWrite] of the earlier revision, which has no guard. *)
Lemma DistributedWrite_unguarded (queries : gmap string string) (s : St) :
  is_Some (queries !! "kolide_detail_query_network_interface") ->
  exists s1 t,
    Rev0.DistributedWrite env s = (Ok tt, s1, EvCall (CDistributedWrite ∅) :: t)
    /\ DistributedWrite env queries s
       = (Ok tt, s1, EvCall (CDistributedWrite queries) :: t)
    /\ frame s s1 /\ NodeKey (ag s1) = NodeKey (ag s)
    /\ Forall (steady_request (ag s)) (requests t)
    /\ (length (requests t) <= 1)%nat
    /\ sleeps t = [].
Proof.
  intros [q Hq].
  destruct (ExecuteTemplate_run env "" "distributed_write" s)
    as (out & err & s0 & Hrender & Hframe & Hkey & _).
  unfold Rev0.DistributedWrite, DistributedWrite, bind, emit.
  rewrite Hq, Hrender. simpl. rewrite (frame_address _ _ Hframe).
  assert (Hf : frame s (mkSt (ag s0) (ndraw s0) (S (ndo s0))))
    by (destruct Hframe; now split).
  split_send; finish_run; (split; [reflexivity |]);
    (split; [first [exact Hframe | exact Hf] |]);
    (split; [exact Hkey |]); simpl;
    (split; [repeat constructor; right; right; reflexivity |]);
    (split; [lia | reflexivity]).
Qed.

(** X8.  Of the mapping handed to [DistributedWrite] only the presence of
    the trigger name counts.  Two mappings that both contain it lead to the
    same final state, the same request and the same log lines, whatever
    the query texts and the other names are; and the session key is left
    as it was. *)
Theorem DistributedWrite_presence (q1 q2 : gmap string string) (s : St) :
  is_Some (q1 !! "kolide_detail_query_network_interface") ->
  is_Some (q2 !! "kolide_detail_query_network_interface") ->
  final (DistributedWrite env q1 s) = final (DistributedWrite env q2 s)
  /\ requests (events (DistributedWrite env q1 s))
     = requests (events (DistributedWrite env q2 s))
  /\ log_lines (events (DistributedWrite env q1 s))
     = log_lines (events (DistributedWrite env q2 s))
  /\ NodeKey (ag (final (DistributedWrite env q1 s))) = NodeKey (ag s).
Proof.
  intros H1 H2.
  destruct (DistributedWrite_unguarded q1 s H1)
    as (s1 & t & H0 & Hq1 & _ & Hkey & _).
  destruct (DistributedWrite_unguarded q2 s H2)
    as (s1' & t' & H0' & Hq2 & _).
  rewrite H0 in H0'. injection H0' as <- <-.
  rewrite Hq1, Hq2. unfold final, events. simpl.
  split; [reflexivity |]. split; [reflexivity |]. split; [reflexivity |].
  exact Hkey.
Qed.

Lemma Enroll_keeps (s : St) :
  exists s1 t,
    Enroll env s = (Ok tt, s1, t)
    /\ frame s s1 /\ sleeps t = [] /\ (length (requests t) <= 1)%nat.
Proof.
  destruct (ExecuteTemplate_run env "" "enroll" s)
    as (out & err & s0 & Hrender & Hframe & _).
  unfold Enroll, bind, emit. rewrite Hrender. simpl.
  split_send;
    [| | destruct (decode_enroll env rbody) as [e|r]; simpl |];
    finish_run; (split; [destruct Hframe; now split |]);
    simpl; (split; [reflexivity | lia]).
Qed.

Lemma Config_keeps (s : St) :
  exists s1 t,
    Config env s = (Ok tt, s1, t)
    /\ ag s1 = ag s
    /\ Forall (steady_request (ag s)) (requests t)
    /\ (length (requests t) <= 1)%nat
    /\ sleeps t = []
    /\ (url_Parse env (ServerAddress (ag s) +:+ "/api/v1/osquery/config") = None ->
        length (requests t) = 1%nat).
Proof.
  unfold Config, bind, emit, get. simpl.
  split_send; finish_run; (split; [reflexivity |]); simpl;
    (split; [repeat constructor; left; reflexivity |]);
    (split; [lia |]); (split; [reflexivity |]);
    intros; simplify_eq; reflexivity.
Qed.

Lemma DistributedRead_keeps (s : St) :
  exists resp err s1 t,
    DistributedRead env s = (Ok (resp, err), s1, t)
    /\ ag s1 = ag s
    /\ (err = None -> is_Some resp)
    /\ Forall (steady_request (ag s)) (requests t)
    /\ (length (requests t) <= 1)%nat
    /\ sleeps t = []
    /\ (url_Parse env (ServerAddress (ag s) +:+ "/api/v1/osquery/distributed/read") = None ->
        length (requests t) = 1%nat).
Proof.
  unfold DistributedRead, bind, emit, get. simpl.
  split_send;
    [| | destruct (decode_read env rbody) as [e|r]; simpl |];
    (eexists _, _, _, _; split; [reflexivity |]; split; [reflexivity |]);
    simpl; (split; [intros; simplify_eq; eauto |]);
    (split; [repeat constructor; right; left; reflexivity |]);
    (split; [lia |]); (split; [reflexivity |]);
    intros; simplify_eq; reflexivity.
Qed.

Lemma DistributedWrite_keeps (queries : gmap string string) (s : St) :
  exists s1 t,
    DistributedWrite env queries s = (Ok tt, s1, t)
    /\ frame s s1 /\ NodeKey (ag s1) = NodeKey (ag s)
    /\ Forall (steady_request (ag s)) (requests t)
    /\ (length (requests t) <= 1)%nat
    /\ sleeps t = [].
Proof.
  destruct (queries !! "kolide_detail_query_network_interface") as [q|] eqn:Hq.
  - destruct (DistributedWrite_unguarded queries s) as
      (s1 & t & _ & Hrun & Hf & Hk & Hreq & Hlen & Hsl); [eauto |].
    eexists _, _. split; [exact Hrun |]. split; [exact Hf |].
    split; [exact Hk |]. split; [exact Hreq |].
    split; [exact Hlen | exact Hsl].
  - unfold DistributedWrite, bind, emit. rewrite Hq. finish_run.
    split; [apply frame_refl |]. split; [reflexivity |].
    split; [constructor |]. simpl. split; [lia | reflexivity].
Qed.

(** One iteration keeps the agent's identity and session key, sends only
    steady requests, at most three, and sleeps once. *)
Lemma loopBody_keeps (s : St) :
  exists s1 t,
    loopBody env s = (Ok tt, s1, t)
    /\ frame s s1 /\ NodeKey (ag s1) = NodeKey (ag s)
    /\ Forall (steady_request (ag s)) (requests t)
    /\ (length (requests t) <= 3)%nat
    /\ sleeps t = [10 * Second]
    /\ (url_Parse env (ServerAddress (ag s) +:+ "/api/v1/osquery/config") = None ->
        url_Parse env (ServerAddress (ag s) +:+ "/api/v1/osquery/distributed/read") = None ->
        (2 <= length (requests t))%nat).
Proof.
  destruct (Config_keeps s) as (s1 & t1 & Hc & Ha1 & Hr1 & Hl1 & Hs1 & Hp1).
  destruct (DistributedRead_keeps s1)
    as (resp & err & s2 & t2 & Hr & Ha2 & Hresp & Hr2 & Hl2 & Hs2 & Hp2).
  rewrite Ha1 in Hr2, Hp2.
  assert (Hag : ag s2 = ag s) by congruence.
  destruct err as [e|].
  - exists s2, (t1 ++ t2 ++ [EvLog (etext e)] ++ [EvSleep (10 * Second)]).
    split.
    { unfold loopBody. eapply bind_ok; [exact Hc |].
      eapply bind_ok; [exact Hr |]. destruct resp; reflexivity. }
    split; [now apply frame_same_agent |]. split; [now rewrite Hag |].
    rewrite !requests_app, !sleeps_app, !length_app, Hs1, Hs2. simpl.
    rewrite !app_nil_r.
    split; [now apply Forall_app |]. split; [lia |].
    split; [reflexivity |]. intros P1 P2.
    specialize (Hp1 P1). specialize (Hp2 P2). lia.
  - destruct (Hresp eq_refl) as [r ->].
    destruct (DistributedWrite_keeps (Queries r) s2)
      as (s3 & t3 & Hw & Hf3 & Hk3 & Hr3 & Hl3 & Hs3).
    rewrite Hag in Hr3.
    exists s3, (t1 ++ t2 ++ t3 ++ [EvSleep (10 * Second)]).
    split.
    { unfold loopBody. eapply bind_ok; [exact Hc |].
      eapply bind_ok; [exact Hr |].
      eapply bind_ok; [exact Hw |]. reflexivity. }
    split; [eapply frame_trans; [apply frame_same_agent, Hag | exact Hf3] |].
    split; [congruence |].
    rewrite !requests_app, !sleeps_app, !length_app, Hs1, Hs2, Hs3. simpl.
    rewrite !app_nil_r.
    split; [repeat (apply Forall_app; split); assumption |].
    split; [lia |]. split; [reflexivity |]. intros P1 P2.
    specialize (Hp1 P1). specialize (Hp2 P2). lia.
Qed.

Lemma iterations_keeps (n : nat) (s : St) :
  exists s1 t,
    iterations n (loopBody env) s = (Ok tt, s1, t)
    /\ frame s s1 /\ NodeKey (ag s1) = NodeKey (ag s)
    /\ Forall (steady_request (ag s)) (requests t)
    /\ (length (requests t) <= 3 * n)%nat
    /\ sleeps t = repeat (10 * Second) n
    /\ (url_Parse env (ServerAddress (ag s) +:+ "/api/v1/osquery/config") = None ->
        url_Parse env (ServerAddress (ag s) +:+ "/api/v1/osquery/distributed/read") = None ->
        (2 * n <= length (requests t))%nat).
Proof.
  revert s; induction n as [|n IH]; intros s.
  - exists s, []. split; [reflexivity |]. split; [apply frame_refl |].
    split; [reflexivity |]. split; [constructor |]. simpl.
    split; [lia |]. split; [reflexivity |]. intros; lia.
  - destruct (loopBody_keeps s)
      as (s0 & t0 & Hl & Hf0 & Hk0 & Hr0 & Hn0 & Hs0 & Hp0).
    destruct (IH s0) as (s1 & t & Hn & Hf & Hk & Hr & Hlen & Hs & Hp).
    rewrite (frame_address _ _ Hf0) in Hp.
    exists s1, (t0 ++ t).
    split; [simpl; eapply bind_ok; [exact Hl | exact Hn] |].
    split; [eapply frame_trans; eassumption |]. split; [congruence |].
    rewrite requests_app, sleeps_app, length_app, Hs0, Hs.
    split.
    { apply Forall_app. split; [exact Hr0 |].
      eapply Forall_impl; [exact Hr |]. intros req.
      apply steady_request_frame; [now rewrite (frame_address _ _ Hf0) | congruence]. }
    split; [lia |]. split; [reflexivity |]. intros P1 P2.
    specialize (Hp0 P1 P2). specialize (Hp P1 P2). lia.
Qed.

(** The whole run: the enrolment, then the iterations. *)
Lemma runLoop_keeps (n : nat) (s : St) :
  exists s0 t0 s1 t,
    Enroll env s = (Ok tt, s0, t0)
    /\ runLoop env n s = (Ok tt, s1, t0 ++ t)
    /\ frame s s1 /\ NodeKey (ag s1) = NodeKey (ag s0)
    /\ Forall (steady_request (ag s0)) (requests t)
    /\ (length (requests t0) <= 1)%nat
    /\ (length (requests t) <= 3 * n)%nat
    /\ sleeps (t0 ++ t) = repeat (10 * Second) n
    /\ (url_Parse env (ServerAddress (ag s) +:+ "/api/v1/osquery/config") = None ->
        url_Parse env (ServerAddress (ag s) +:+ "/api/v1/osquery/distributed/read") = None ->
        (2 * n <= length (requests t))%nat).
Proof.
  destruct (Enroll_keeps s) as (s0 & t0 & He & Hf0 & Hs0 & Hl0).
  destruct (iterations_keeps n s0) as (s1 & t & Hn & Hf & Hk & Hr & Hlen & Hs & Hp).
  rewrite (frame_address _ _ Hf0) in Hp.
  exists s0, t0, s1, t. split; [exact He |].
  split; [unfold runLoop; eapply bind_ok; [exact He | exact Hn] |].
  split; [eapply frame_trans; eassumption |].
  rewrite sleeps_app, Hs0, Hs. now repeat split.
Qed.

(** X9.  The session key is never refreshed.  Whatever the server answers
    and however long the loop runs, the session key after any number of
    iterations is the one [Enroll] left, the server address, the enroll
    secret, the UUID and the templates are those the agent started with,
    and no entry of the cache is lost or changed. *)
Theorem session_key_stable (n : nat) (s : St) :
  exists s0 t0 s1 t,
    Enroll env s = (Ok tt, s0, t0)
    /\ runLoop env n s = (Ok tt, s1, t0 ++ t)
    /\ NodeKey (ag s1) = NodeKey (ag s0)
    /\ frame s s1.
Proof.
  destruct (runLoop_keeps n s) as (s0 & t0 & s1 & t & He & Hrun & Hf & Hk & _).
  now exists s0, t0, s1, t.
Qed.

(** X10.  After the enrolment the loop sends nothing but steady requests:
    every request of every iteration is the standard POST to the config
    path or to the distributed-read path of the agent's server address
    with the body that carries the session key [Enroll] left, or the
    standard POST to the distributed-write path. *)
Theorem steady_requests (n : nat) (s : St) :
  exists s0 t0 s1 t,
    Enroll env s = (Ok tt, s0, t0)
    /\ runLoop env n s = (Ok tt, s1, t0 ++ t)
    /\ ServerAddress (ag s0) = ServerAddress (ag s)
    /\ Forall (steady_request (ag s0)) (requests t).
Proof.
  destruct (runLoop_keeps n s)
    as (s0 & t0 & s1 & t & He & Hrun & _ & _ & Hr & _).
  destruct (Enroll_keeps s) as (s0' & t0' & He' & Hf0 & _).
  rewrite He in He'. injection He' as <- <-.
  exists s0, t0, s1, t. split; [exact He |]. split; [exact Hrun |].
  split; [apply (frame_address _ _ Hf0) | exact Hr].
Qed.

(** X11.  The load one agent puts on the server is bounded: in [n]
    iterations it sleeps exactly [n] times, ten seconds each, and makes at
    most one round trip for the enrolment and at most three per
    iteration; when the config and distributed-read URLs parse it makes at
    least two per iteration. *)
Theorem load_bound (n : nat) (s : St) :
  sleeps (events (runLoop env n s)) = repeat (10 * Second) n
  /\ (length (requests (events (runLoop env n s))) <= 1 + 3 * n)%nat
  /\ (url_Parse env (ServerAddress (ag s) +:+ "/api/v1/osquery/config") = None ->
      url_Parse env (ServerAddress (ag s) +:+ "/api/v1/osquery/distributed/read") = None ->
      (2 * n <= length (requests (events (runLoop env n s))))%nat).
Proof.
  destruct (runLoop_keeps n s)
    as (s0 & t0 & s1 & t & _ & Hrun & _ & _ & _ & Hl0 & Hl & Hs & Hp).
  rewrite Hrun. unfold events; simpl.
  rewrite requests_app, length_app.
  split; [exact Hs |]. split; [lia |]. intros P1 P2.
  specialize (Hp P1 P2). lia.
Qed.

End SteadyState.

(** ** The earlier revision *)

Section Revisions.

Variable env : Env.

(** The earlier [DistributedRead] makes the exchange of the later one and
    ends in the same state; it logs where the later one returns an
    error. *)
Lemma Rev0_DistributedRead_run (s : St) :
  exists resp err s1 t l,
    DistributedRead env s = (Ok (resp, err), s1, t)
    /\ Rev0.DistributedRead env s = (Ok tt, s1, t ++ l)
    /\ schedule t = [SRead]
    /\ schedule l = [] /\ requests l = []
    /\ (err = None -> l = [] /\ is_Some resp).
Proof.
  unfold DistributedRead, Rev0.DistributedRead, bind, emit, get. simpl.
  split_send;
    [| | destruct (decode_read env rbody) as [e|r]; simpl |];
    eexists _, _, _, _, _;
    (split; [reflexivity |]); (split; [simpl; reflexivity |]);
    (split; [reflexivity |]); (split; [reflexivity |]);
    (split; [reflexivity |]); intros; simplify_eq; eauto.
Qed.

Lemma Rev0_DistributedWrite_run (s : St) :
  exists s1 t,
    Rev0.DistributedWrite env s = (Ok tt, s1, EvCall (CDistributedWrite ∅) :: t)
    /\ schedule t = [] /\ (length (requests t) <= 1)%nat.
Proof.
  destruct (ExecuteTemplate_run env "" "distributed_write" s)
    as (out & err & s0 & Hrender & _).
  unfold Rev0.DistributedWrite, bind, emit. rewrite Hrender. simpl.
  split_send; finish_run; simpl; (split; [reflexivity | lia]).
Qed.

Lemma Rev0_loopBody_run (s : St) :
  exists s1 t,
    Rev0.loopBody env s = (Ok tt, s1, t)
    /\ schedule t = [SConfig; SRead; SWrite ∅; SIdle (10 * Second)].
Proof.
  destruct (Config_run env s) as (s1 & t1 & Hc & _ & Hs1).
  destruct (Rev0_DistributedRead_run s1)
    as (resp & err & s2 & t2 & l & _ & Hr & Hs2 & Hsl & _).
  destruct (Rev0_DistributedWrite_run s2) as (s3 & t3 & Hw & Hs3 & _).
  eexists _, _. split.
  - unfold Rev0.loopBody. eapply bind_ok; [exact Hc |].
    eapply bind_ok; [exact Hr |]. eapply bind_ok; [exact Hw |]. reflexivity.
  - rewrite !schedule_app, Hs1, Hs2, Hsl.
    change (schedule (EvCall (CDistributedWrite ∅) :: t3))
      with (SWrite ∅ :: schedule t3).
    rewrite Hs3. reflexivity.
Qed.

(** X12.  In the earlier revision the write is unconditional: after the
    one [Enroll], every cycle of the run loop is [Config],
    [DistributedRead], [DistributedWrite] and ten seconds of idling,
    whatever the read came to, and the loop returns from every cycle. *)
Theorem Rev0_runLoop_schedule (n : nat) (s : St) :
  exists s1 t,
    Rev0.runLoop env n s = (Ok tt, s1, t)
    /\ schedule t
       = SEnroll
         :: concat (repeat [SConfig; SRead; SWrite ∅; SIdle (10 * Second)] n).
Proof.
  destruct (Enroll_run env s) as (s0 & t0 & He & Hs0).
  assert (Hit : forall m s', exists s1 t,
             iterations m (Rev0.loopBody env) s' = (Ok tt, s1, t)
             /\ schedule t
                = concat (repeat [SConfig; SRead; SWrite ∅;
                                  SIdle (10 * Second)] m)).
  { induction m as [|m IH]; intros s'.
    - now exists s', [].
    - destruct (Rev0_loopBody_run s') as (s1 & t1 & Hl & Hs1).
      destruct (IH s1) as (s2 & t2 & Hm & Hs2).
      exists s2, (t1 ++ t2).
      split; [simpl; eapply bind_ok; [exact Hl | exact Hm] |].
      rewrite schedule_app, Hs1, Hs2. reflexivity. }
  destruct (Hit n s0) as (s1 & t & Hn & Hs).
  exists s1, (t0 ++ t).
  split; [unfold Rev0.runLoop; eapply bind_ok; [exact He | exact Hn] |].
  rewrite schedule_app, Hs0, Hs. reflexivity.
Qed.

(** X13.  The two revisions of the cycle, side by side.  From the same
    state the earlier cycle sends the requests of the later one, in the
    same order, and at most one more: the write that the later revision
    skips.  When the later read returns queries with the trigger among them
    there is nothing more, and the two cycles end in the same state and
    log the same lines. *)
Theorem revisions_agree (s : St) :
  exists extra,
    requests (events (Rev0.loopBody env s))
    = requests (events (loopBody env s)) ++ extra
    /\ (length extra <= 1)%nat
    /\ forall s1 t1 resp s2 t2,
         Config env s = (Ok tt, s1, t1) ->
         DistributedRead env s1 = (Ok (Some resp, None), s2, t2) ->
         is_Some (Queries resp !! "kolide_detail_query_network_interface"%string) ->
         extra = []
         /\ final (Rev0.loopBody env s) = final (loopBody env s)
         /\ log_lines (events (Rev0.loopBody env s))
            = log_lines (events (loopBody env s)).
Proof.
  destruct (Config_run env s) as (s1 & t1 & Hc & _).
  destruct (Rev0_DistributedRead_run s1)
    as (resp & err & s2 & t2 & l & Hr & Hr0 & _ & _ & Hrl & Hl).
  destruct (Rev0_DistributedWrite_run s2) as (s3 & t3 & Hw0 & _ & Hlen).
  assert (Hold : Rev0.loopBody env s
                 = (Ok tt, s3,
                    t1 ++ (t2 ++ l) ++ (EvCall (CDistributedWrite ∅) :: t3)
                       ++ [EvSleep (10 * Second)])).
  { unfold Rev0.loopBody. eapply bind_ok; [exact Hc |].
    eapply bind_ok; [exact Hr0 |]. eapply bind_ok; [exact Hw0 |]. reflexivity. }
  assert (Hreq : requests (events (Rev0.loopBody env s))
                 = requests t1 ++ requests t2 ++ requests t3).
  { rewrite Hold. unfold events; cbn [snd].
    rewrite !requests_app, Hrl, app_nil_r.
    change (requests (EvCall (CDistributedWrite ∅) :: t3)) with (requests t3).
    change (requests [EvSleep (10 * Second)]) with (@nil Request).
    now rewrite (app_nil_r (requests t3)). }
  destruct err as [e|].
  - (* the read returned an error: the later revision logs it and skips *)
    assert (Hnew : loopBody env s
                   = (Ok tt, s2,
                      t1 ++ t2 ++ [EvLog (etext e)] ++ [EvSleep (10 * Second)])).
    { unfold loopBody. eapply bind_ok; [exact Hc |].
      eapply bind_ok; [exact Hr |]. destruct resp; reflexivity. }
    exists (requests t3). rewrite Hreq, Hnew. unfold events; cbn [snd].
    rewrite !requests_app.
    change (requests [EvLog (etext e)]) with (@nil Request).
    change (requests [EvSleep (10 * Second)]) with (@nil Request).
    rewrite !app_nil_r, app_assoc.
    split; [reflexivity |]. split; [exact Hlen |].
    intros s1' t1' resp' s2' t2' Hc' Hr'.
    rewrite Hc in Hc'. injection Hc' as <- <-.
    rewrite Hr in Hr'. discriminate.
  - destruct (Hl eq_refl) as [-> [r ->]].
    destruct (Queries r !! "kolide_detail_query_network_interface"%string)
      as [q|] eqn:Hq.
    + (* queries with the trigger: the same write in both *)
      destruct (DistributedWrite_unguarded env (Queries r) s2)
        as (s3' & t3' & Hw0' & Hw & _); [eauto |].
      rewrite Hw0 in Hw0'. injection Hw0' as <- <-.
      assert (Hnew : loopBody env s
                     = (Ok tt, s3,
                        t1 ++ t2 ++ (EvCall (CDistributedWrite (Queries r)) :: t3)
                           ++ [EvSleep (10 * Second)])).
      { unfold loopBody. eapply bind_ok; [exact Hc |].
        eapply bind_ok; [exact Hr |]. eapply bind_ok; [exact Hw |]. reflexivity. }
      exists []. rewrite Hreq, Hold, Hnew. unfold events, final; cbn [fst snd].
      rewrite !requests_app, !log_lines_app, ?app_nil_r.
      change (requests [EvSleep (10 * Second)]) with (@nil Request).
      rewrite ?app_nil_r.
      change (requests (EvCall (CDistributedWrite (Queries r)) :: t3))
        with (requests t3).
      change (log_lines (EvCall (CDistributedWrite (Queries r)) :: t3))
        with (log_lines t3).
      change (log_lines (EvCall (CDistributedWrite ∅) :: t3))
        with (log_lines t3).
      split; [reflexivity |]. split; [simpl; lia |]. intros; now repeat split.
    + (* queries without the trigger: the later revision sends no write *)
      assert (Hw : DistributedWrite env (Queries r) s2
                   = (Ok tt, s2, [EvCall (CDistributedWrite (Queries r))])).
      { unfold DistributedWrite, bind, emit. now rewrite Hq. }
      assert (Hnew : loopBody env s
                     = (Ok tt, s2,
                        t1 ++ t2 ++ [EvCall (CDistributedWrite (Queries r))]
                           ++ [EvSleep (10 * Second)])).
      { unfold loopBody. eapply bind_ok; [exact Hc |].
        eapply bind_ok; [exact Hr |]. eapply bind_ok; [exact Hw |]. reflexivity. }
      exists (requests t3). rewrite Hreq, Hnew. unfold events; cbn [snd].
      rewrite !requests_app.
      change (requests [EvCall (CDistributedWrite (Queries r))])
        with (@nil Request).
      change (requests [EvSleep (10 * Second)]) with (@nil Request).
      rewrite !app_nil_r, app_assoc.
      split; [reflexivity |]. split; [exact Hlen |].
      intros s1' t1' resp' s2' t2' Hc' Hr' [q' Hq'].
      rewrite Hc in Hc'. injection Hc' as <- <-.
      rewrite Hr in Hr'. injection Hr' as <- <- <-. congruence.
Qed.

End Revisions.

(** ** The launcher, further *)

Section LaunchMore.

Variable env : Env.

(** The loop of [main] without any assumption on the clock: the agents it
    appends and the sleeps it makes. *)
Lemma launch_loop_agents (k : nat) (serverURL enrollSecret : string)
    (tmpl : gmap string (list Action)) (d : Z) (l0 : Launcher) :
  exists l t,
    launch_loop env k serverURL enrollSecret tmpl d l0 = (Ok tt, l, t)
    /\ agents l
       = agents l0
         ++ map (fun j => mkAgent serverURL enrollSecret EmptyString
                                  (uuid_New env (nuuid l0 + j)) tmpl ∅)
                (seq 0 k)
    /\ sleeps t = repeat d k.
Proof.
  revert l0; induction k as [|k IH]; intros l0.
  - exists l0, []. split; [reflexivity |].
    split; [simpl; now rewrite app_nil_r | reflexivity].
  - simpl launch_loop.
    unfold bind, NewAgent, append_agent, go_runLoop, SleepClock.
    cbn [app].
    match goal with
    | |- context [launch_loop env k _ _ _ _ ?l1] =>
        destruct (IH l1) as (l & t & -> & Hag & Hsl)
    end.
    cbn [agents nuuid] in Hag.
    eexists _, _. split; [reflexivity |]. split.
    + rewrite Hag, <- app_assoc. f_equal. cbn [seq map app].
      rewrite Nat.add_0_r. f_equal.
      rewrite <- seq_shift, map_map. apply map_ext. intros j.
      now rewrite Nat.add_succ_r.
    + change (sleeps (EvGo ?a ?c :: EvSleep d :: t)) with (d :: sleeps t).
      now rewrite Hsl.
Qed.

(** X14.  A negative host count is not rejected: [main] computes a delay,
    runs its loop zero times, creates no agent, sleeps not at all, and
    reports that the agents are running. *)
Theorem main_negative (serverURL enrollSecret : string) (N : Z)
    (tmpl : gmap string (list Action)) :
  N < 0 ->
  main env serverURL enrollSecret N tmpl launcher0
  = (Ok tt, launcher0, [EvPrint "Agents running. Kill with C-c."%string]).
Proof.
  intros HN. destruct N as [|p|p]; try lia. reflexivity.
Qed.

(** X15.  The starts are spread over the ten-second window and no more.
    For a host count [N] of at least one [main] sleeps exactly [N] times
    the same delay; these delays add up to at most ten seconds and to more
    than ten seconds less [N] nanoseconds; with more hosts than there are
    nanoseconds in ten seconds the delay is zero.  With sleeps that last at
    least as long as asked, [main] reaches its last statement no earlier
    than the sum of the delays after it began. *)
Theorem main_window (serverURL enrollSecret : string) (N : Z)
    (tmpl : gmap string (list Action)) :
  (forall i, 0 <= sleep_lag env i) ->
  1 <= N ->
  exists l t,
    main env serverURL enrollSecret N tmpl launcher0 = (Ok tt, l, t)
    /\ sleeps t = repeat (10 * Second / N) (Z.to_nat N)
    /\ 10 * Second - N < N * (10 * Second / N) <= 10 * Second
    /\ N * (10 * Second / N) <= clock l
    /\ (10 * Second < N -> 10 * Second / N = 0).
Proof.
  intros Hlag HN. destruct (sleepTime_pos N HN) as [Hst [Hd _]].
  destruct (launch_loop_run env Hlag (Z.to_nat N) serverURL enrollSecret tmpl
                            (10 * Second / N) launcher0 Hd)
    as (l & t & Hrun & _ & _ & _ & Hclock & _).
  destruct (launch_loop_agents (Z.to_nat N) serverURL enrollSecret tmpl
                               (10 * Second / N) launcher0)
    as (l' & t' & Hrun' & _ & Hsl).
  rewrite Hrun in Hrun'. injection Hrun' as <- <-.
  exists l, (t ++ [EvPrint "Agents running. Kill with C-c."%string]).
  split; [unfold main; rewrite Hst; eapply bind_ok; [exact Hrun | reflexivity] |].
  split; [rewrite sleeps_app, Hsl; apply app_nil_r |].
  pose proof (Z.mul_div_le (10 * Second) N ltac:(lia)) as Hle.
  pose proof (Z.mod_pos_bound (10 * Second) N ltac:(lia)) as Hmod.
  pose proof (Z.div_mod (10 * Second) N ltac:(lia)) as Hdm.
  split; [lia |].
  split; [simpl in Hclock; rewrite Z2Nat.id in Hclock; lia |].
  intros Hbig. apply Z.div_small. unfold Second in *. lia.
Qed.

(** X16.  No two agents of a fleet share an identity, as long as the UUID
    generator does not repeat itself: for any host count but zero the
    agents [main] holds have pairwise distinct UUIDs, and there are as
    many agents as hosts asked for (none for a negative count). *)
Theorem main_identities (serverURL enrollSecret : string) (N : Z)
    (tmpl : gmap string (list Action)) :
  (forall i j, uuid_New env i = uuid_New env j -> i = j) ->
  N <> 0 ->
  exists l t,
    main env serverURL enrollSecret N tmpl launcher0 = (Ok tt, l, t)
    /\ length (agents l) = Z.to_nat N
    /\ NoDup (map UUID (agents l)).
Proof.
  intros Hinj HN.
  assert (Hst : exists d, sleepTime N = Some d).
  { unfold sleepTime, div64. destruct (Z.eqb_spec N 0); [lia | eauto]. }
  destruct Hst as [d Hst].
  destruct (launch_loop_agents (Z.to_nat N) serverURL enrollSecret tmpl
                               d launcher0)
    as (l & t & Hrun & Hag & _).
  exists l, (t ++ [EvPrint "Agents running. Kill with C-c."%string]).
  split; [unfold main; rewrite Hst; eapply bind_ok; [exact Hrun | reflexivity] |].
  simpl in Hag. rewrite Hag, map_map. simpl.
  split; [now rewrite length_map, length_seq |].
  apply NoDup_ListNoDup, Finite.Injective_map_NoDup.
  - intros i j. apply Hinj.
  - apply seq_NoDup.
Qed.

End LaunchMore.

(** ** The further properties, at the fake server *)

Lemma tally_inj (i j : nat) : tally i = tally j -> i = j.
Proof.
  revert j; induction i as [|i IH]; intros [|j] H; simpl in H;
    try discriminate; [reflexivity |].
  injection H as H. now rewrite (IH j H).
Qed.

Lemma randomString_spec_witness :
  (forall i, 0 <= rand_Int63 good i < 2 ^ 63)
  /\ 0 <= 3 <= maxAlloc
  /\ (exists v,
        randomString good 3 st0 = (Ok v, mkSt agent0 3 0, [])
        /\ len v = 3
        /\ all_chars in_alphabet v = true)
  /\ -1 < 0
  /\ randomString good (-1) st0
     = (Panic "strings.Builder.Grow: negative count"%string, st0, [])
  /\ maxAlloc < 2 ^ 62
  /\ randomString good (2 ^ 62) st0
     = (Panic "runtime error: makeslice: len out of range"%string, st0, []).
Proof.
  split; [exact draw_range |]. split; [unfold maxAlloc; lia |].
  destruct (randomString_spec good draw_range 3 st0) as (_ & _ & Hok).
  destruct Hok as (v & Hrun & Hlen & Hall & _); [unfold maxAlloc; lia |].
  split; [exists v; split; [exact Hrun |]; now split |].
  split; [lia |].
  split; [apply (randomString_spec good draw_range (-1) st0); lia |].
  split; [unfold maxAlloc; lia |].
  apply (randomString_spec good draw_range (2 ^ 62) st0). unfold maxAlloc. lia.
Defined.

Lemma CachedString_accounting_witness :
  (forall i, 0 <= rand_Int63 good i < 2 ^ 63)
  /\ strings (ag st0) !! "hostname"%string = None
  /\ exists v s1,
       CachedString good "hostname" st0 = (Ok v, s1, [])
       /\ ndraw s1 = 12%nat
       /\ size (strings (ag s1)) = 1%nat.
Proof.
  split; [exact draw_range |]. split; [reflexivity |].
  destruct (CachedString_accounting good draw_range "hostname" st0)
    as (v & s1 & Hrun & _ & _ & _ & _ & Hmiss).
  destruct (Hmiss eq_refl) as (Hdraw & Hsize & _).
  exists v, s1. split; [exact Hrun |]. split; [exact Hdraw | exact Hsize].
Defined.

Lemma lookups_dom_witness :
  (forall i, 0 <= rand_Int63 good i < 2 ^ 63)
  /\ exists s1,
       lookups good ["hostname"; "uuid"; "hostname"]%string st0 = (Ok tt, s1, [])
       /\ (size (strings (ag s1)) <= 3)%nat
       /\ (ndraw s1 <= 36)%nat.
Proof.
  split; [exact draw_range |].
  destruct (lookups_dom good draw_range ["hostname"; "uuid"; "hostname"]%string st0)
    as (s1 & Hrun & _ & Hsize & Hdraw).
  exists s1. split; [exact Hrun |]. split; [exact Hsize | apply Hdraw].
Defined.

Lemma CachedStrings_stable_witness :
  (forall i, 0 <= rand_Int63 good i < 2 ^ 63)
  /\ exists vs s1,
       CachedStrings good ["hostname"; "uuid"]%string st0 = (Ok vs, s1, [])
       /\ CachedStrings good ["hostname"; "uuid"]%string s1 = (Ok vs, s1, []).
Proof.
  split; [exact draw_range |].
  destruct (CachedStrings_stable good draw_range ["hostname"; "uuid"]%string st0)
    as (vs & s1 & Hrun & _ & Hagain & _).
  exists vs, s1. split; [exact Hrun | exact Hagain].
Defined.

Lemma requests_standard_witness :
  is_Some (trigger_queries !! "kolide_detail_query_network_interface"%string)
  /\ one_post good st0 "/api/v1/osquery/distributed/write"
              (events (DistributedWrite good trigger_queries st0)).
Proof.
  assert (Hq : is_Some (trigger_queries
                          !! "kolide_detail_query_network_interface"%string))
    by (eexists; reflexivity).
  split; [exact Hq |].
  apply (requests_standard good trigger_queries st0). exact Hq.
Defined.

Lemma Config_effect_witness :
  exists s1 t,
    Config good st0 = (Ok tt, s1, t)
    /\ ag s1 = ag st0
    /\ answered_ok t
    /\ log_lines t = [].
Proof.
  destruct (Config_effect good st0)
    as (s1 & t & Hrun & Hag & _ & _ & _ & Hlog).
  assert (Ht : events (Config good st0) = t) by (now rewrite Hrun).
  vm_compute in Ht. subst t.
  assert (Hok : answered_ok
                  [EvCall CConfig;
                   EvDo (std_request (base +:+ "/api/v1/osquery/config")
                                     (node_key_body ""))
                        (DoResp 200 "200 OK" "")])
    by (eexists _, _, _; reflexivity).
  eexists s1, _. split; [exact Hrun |]. split; [exact Hag |].
  split; [exact Hok | apply Hlog; exact Hok].
Defined.


Lemma DistributedWrite_presence_witness :
  is_Some (trigger_queries !! "kolide_detail_query_network_interface"%string)
  /\ is_Some (<["some_other_query"%string := "select 1"%string]> trigger_queries
               !! "kolide_detail_query_network_interface"%string)
  /\ final (DistributedWrite good trigger_queries st0)
     = final (DistributedWrite good
                (<["some_other_query"%string := "select 1"%string]> trigger_queries)
                st0).
Proof.
  assert (H1 : is_Some (trigger_queries
                          !! "kolide_detail_query_network_interface"%string))
    by (eexists; reflexivity).
  assert (H2 : is_Some (<["some_other_query"%string := "select 1"%string]>
                          trigger_queries
                          !! "kolide_detail_query_network_interface"%string))
    by (eexists; reflexivity).
  split; [exact H1 |]. split; [exact H2 |].
  apply (DistributedWrite_presence good _ _ st0 H1 H2).
Defined.

Lemma load_bound_witness :
  url_Parse good (ServerAddress (ag st0) +:+ "/api/v1/osquery/config") = None
  /\ url_Parse good (ServerAddress (ag st0) +:+ "/api/v1/osquery/distributed/read")
     = None
  /\ (2 * 2 <= length (requests (events (runLoop good 2 st0))))%nat.
Proof.
  split; [reflexivity |]. split; [reflexivity |].
  apply (load_bound good 2 st0); reflexivity.
Defined.

Lemma revisions_agree_witness :
  exists extra,
    requests (events (Rev0.loopBody good st0))
    = requests (events (loopBody good st0)) ++ extra
    /\ extra = []
    /\ final (Rev0.loopBody good st0) = final (loopBody good st0).
Proof.
  destruct (revisions_agree good st0) as (extra & Hreq & _ & Hsame).
  exists extra. split; [exact Hreq |].
  edestruct Hsame as (He & Hf & _);
    [reflexivity | reflexivity | eexists; reflexivity |].
  split; [exact He | exact Hf].
Defined.

Lemma main_negative_witness :
  -3 < 0
  /\ main good base "secret" (-3) tmpl launcher0
     = (Ok tt, launcher0, [EvPrint "Agents running. Kill with C-c."%string]).
Proof.
  split; [lia |]. apply main_negative. lia.
Defined.

Lemma main_window_witness :
  (forall i, 0 <= sleep_lag good i)
  /\ 1 <= 3
  /\ exists l t,
       main good base "secret" 3 tmpl launcher0 = (Ok tt, l, t)
       /\ sleeps t = [3333333333; 3333333333; 3333333333]
       /\ 9999999999 <= clock l.
Proof.
  split; [exact lag_range |]. split; [lia |].
  destruct (main_window good base "secret" 3 tmpl lag_range)
    as (l & t & Hrun & Hsl & _ & Hclock & _); [lia |].
  exists l, t. split; [exact Hrun |]. split; [exact Hsl | exact Hclock].
Defined.

Lemma main_identities_witness :
  (forall i j, uuid_New tally_world i = uuid_New tally_world j -> i = j)
  /\ 4 <> 0
  /\ exists l t,
       main tally_world base "secret" 4 tmpl launcher0 = (Ok tt, l, t)
       /\ length (agents l) = 4%nat
       /\ NoDup (map UUID (agents l)).
Proof.
  split; [exact tally_inj |]. split; [lia |].
  apply (main_identities tally_world base "secret" 4 tmpl tally_inj). lia.
Defined.
